(** * libopenraw Python bindings: the [openraw] facade and its two demo drivers

    A shallow embedding of
      - [python/openraw/__init__.py]  (the facade over the native [_openraw] module),
      - [python/demo/thumb.py]        (the extract-thumbnails driver),
      - [python/demo/cfa.py]          (the extract-raw-data driver),
    together with the Python 2 builtins those files rely on ([%d], [%s], [%r],
    [os.path]) and a model of the native engine's contract.

    Python 2 [str] values are byte strings; they are modelled as [string].
    Effects (the native objects the facade hands around, the file store, the
    error stream, the browser, the calls made to the engine) are threaded
    through a state-and-exception monad. *)

From Stdlib Require Import ZArith NArith Ascii String DecimalString DecimalN DecimalZ.
From stdpp Require Import gmap strings list fin_maps.

Local Open Scope Z_scope.

(** ** Python 2 builtins used by the sources *)
Module Py.

(** ['%d' % n] for an [int]/[long]: decimal digits, a leading minus sign for
    negative numbers, no padding. *)
Definition format_d (n : Z) : string :=
  NilZero.string_of_int (Z.to_int n).

(** The inverse reading of a decimal header field. *)
Definition parse_d (s : string) : option Z :=
  Z.of_int <$> NilZero.int_of_string s.

(** ['%s' % v] where [v] is a [str] or [None]: [str(None)] is the four
    characters [None]. *)
Definition format_s (v : option string) : string :=
  match v with
  | Some s => s
  | None => "None"
  end.

(** [2 ** b] for a non-negative [int] exponent is an exact [int]/[long]. *)
Definition pow2 (b : N) : Z := 2 ^ Z.of_N b.

Definition hex_digit (n : N) : ascii :=
  match n with
  | 0%N => "0" | 1%N => "1" | 2%N => "2" | 3%N => "3" | 4%N => "4"
  | 5%N => "5" | 6%N => "6" | 7%N => "7" | 8%N => "8" | 9%N => "9"
  | 10%N => "a" | 11%N => "b" | 12%N => "c" | 13%N => "d" | 14%N => "e"
  | _ => "f"
  end%char.

Fixpoint contains (c : ascii) (s : string) : bool :=
  match s with
  | EmptyString => false
  | String a r => Ascii.eqb a c || contains c r
  end.

Definition backslash : ascii := "092"%char.
Definition squote : ascii := "039"%char.
Definition dquote : ascii := "034"%char.
Definition tab : ascii := "009"%char.
Definition lf : ascii := "010"%char.
Definition cr : ascii := "013"%char.

(** The one-character string holding a newline, written [\n] in Python. *)
Definition nl : string := String lf EmptyString.

(** One character of [repr(str)] for the chosen quote character. *)
Definition repr_char (quote c : ascii) : string :=
  let n := N_of_ascii c in
  if Ascii.eqb c quote || Ascii.eqb c backslash then String backslash (String c "")
  else if Ascii.eqb c tab then String backslash "t"
  else if Ascii.eqb c lf then String backslash "n"
  else if Ascii.eqb c cr then String backslash "r"
  else if ((n <? 32) || (127 <=? n))%N
       then String backslash (String "x"%char
              (String (hex_digit (n / 16)) (String (hex_digit (n mod 16)) "")))
  else String c "".

Fixpoint repr_body (quote : ascii) (s : string) : string :=
  match s with
  | EmptyString => ""
  | String c r => repr_char quote c +:+ repr_body quote r
  end.

(** ['%r' % s] for a [str]: single quotes, unless the string holds a single
    quote and no double quote. *)
Definition repr (s : string) : string :=
  let quote : ascii :=
    if contains squote s && negb (contains dquote s) then dquote else squote in
  String quote (repr_body quote s) +:+ String quote "".

(** [s.rfind(c)]: index of the last occurrence, [-1] when there is none. *)
Fixpoint rfind_from (c : ascii) (s : string) (i : Z) : Z :=
  match s with
  | EmptyString => -1
  | String a r =>
      let k := rfind_from c r (i + 1) in
      if 0 <=? k then k else if Ascii.eqb a c then i else -1
  end.

Definition rfind (c : ascii) (s : string) : Z := rfind_from c s 0.

(** [s[i:]] and [s[:i]] for [0 <= i]. *)
Definition slice_from (i : Z) (s : string) : string :=
  String.substring (Z.to_nat i) (String.length s - Z.to_nat i) s.

Definition slice_to (i : Z) (s : string) : string :=
  String.substring 0 (Z.to_nat i) s.

Definition startswith (c : ascii) (s : string) : bool :=
  match s with
  | String a _ => Ascii.eqb a c
  | EmptyString => false
  end.

Fixpoint endswith (c : ascii) (s : string) : bool :=
  match s with
  | EmptyString => false
  | String a EmptyString => Ascii.eqb a c
  | String _ r => endswith c r
  end.

(** [s.split(c)]: always at least one piece. *)
Fixpoint split (c : ascii) (s : string) : list string :=
  match s with
  | EmptyString => [""]
  | String a r =>
      if Ascii.eqb a c then "" :: split c r
      else match split c r with
           | h :: t => String a h :: t
           | [] => [String a ""]
           end
  end.

(** [sep.join(pieces)]. *)
Fixpoint join (sep : string) (pieces : list string) : string :=
  match pieces with
  | [] => ""
  | [p] => p
  | p :: rest => p +:+ sep +:+ join sep rest
  end.

End Py.

(** ** [os.path] on POSIX ([posixpath], Python 2.6 and later) *)
Module posixpath.

Definition sep : ascii := "/"%char.
Definition extsep : ascii := "."%char.

(** [basename(p)]: [i = p.rfind('/') + 1; return p[i:]]. *)
Definition basename (p : string) : string :=
  let i := Py.rfind sep p + 1 in
  Py.slice_from i p.

(** The scan of [_splitext]: is there a character other than the dot in
    [p[filenameIndex:dotIndex]]? *)
Fixpoint has_non_dot (s : string) : bool :=
  match s with
  | EmptyString => false
  | String a r => if Ascii.eqb a extsep then has_non_dot r else true
  end.

(** [splitext(p)]: the extension starts at the last dot, leading dots of the
    last component do not count. *)
Definition splitext (p : string) : string * string :=
  let sepIndex := Py.rfind sep p in
  let dotIndex := Py.rfind extsep p in
  if (sepIndex <? dotIndex)
     && has_non_dot (String.substring (Z.to_nat (sepIndex + 1))
                                       (Z.to_nat (dotIndex - (sepIndex + 1))) p)
  then (Py.slice_to dotIndex p, Py.slice_from dotIndex p)
  else (p, "").

(** [join(a, b)] with one component [b]. *)
Definition join (a b : string) : string :=
  if Py.startswith sep b then b
  else if String.eqb a "" || Py.endswith sep a then a +:+ b
  else a +:+ "/" +:+ b.

Definition isabs (s : string) : bool := Py.startswith sep s.

(** One round of the loop of [normpath] over the components, [new_comps]
    kept with its last element first. *)
Definition norm_step (initial_slashes : bool) (rev_comps : list string)
    (comp : string) : list string :=
  if String.eqb comp "" || String.eqb comp "." then rev_comps
  else if negb (String.eqb comp "..")
          || (negb initial_slashes && bool_decide (rev_comps = []))
          || match rev_comps with
             | top :: _ => String.eqb top ".."
             | [] => false
             end
       then comp :: rev_comps
       else match rev_comps with
            | _ :: below => below
            | [] => []
            end.

Definition normpath (path : string) : string :=
  if String.eqb path "" then "."
  else
    let initial_slashes : nat :=
      if Py.startswith sep path then
        match path with
        | String _ (String b EmptyString) =>
            if Ascii.eqb b sep then 2%nat else 1%nat
        | String _ (String b (String c _)) =>
            if Ascii.eqb b sep && negb (Ascii.eqb c sep) then 2%nat else 1%nat
        | _ => 1%nat
        end
      else 0%nat in
    let comps := Py.split sep path in
    let new_comps :=
      rev (fold_left (norm_step (negb (Nat.eqb initial_slashes 0))) comps []) in
    let joined := Py.join "/" new_comps in
    let result :=
      match initial_slashes with
      | 0%nat => joined
      | 1%nat => "/" +:+ joined
      | _ => "//" +:+ joined
      end in
    if String.eqb result "" then "." else result.

(** [abspath(path)] for the working directory [cwd] that [os.getcwd()]
    reports. *)
Definition abspath (cwd path : string) : string :=
  normpath (if isabs path then path else join cwd path).

End posixpath.

(** ** The native module [_openraw] (Boost.Python binding of the C++ engine)

    The Python sources reach the engine through this module only; its
    test-suite shows its surface, and it is modelled by its contract. *)
Module _openraw.

(** Modelled from the spec: the enumeration [_openraw.Type] of camera
    formats; the declaration is missing, the sources name two members. *)
Inductive Type_ : Set :=
| OR_RAWFILE_TYPE_UNKNOWN
| OR_RAWFILE_TYPE_CR2
| OR_RAWFILE_TYPE_OTHER (tag : N).

(** Modelled from the spec: the enumeration [_openraw.or_error]; [NONE]
    signals success, every other member is an engine failure that the
    facade surfaces opaquely. *)
Inductive or_error : Set :=
| OR_ERROR_NONE
| OR_ERROR_CANT_OPEN
| OR_ERROR_OTHER (code : N).

#[global] Instance or_error_eq_dec : EqDecision or_error.
Proof. solve_decision. Defined.

(** Modelled from the spec: [_openraw.or_options] is the decode options
    bitmask, [OR_OPTIONS_NONE] the empty one. *)
Definition or_options : Set := N.
Definition OR_OPTIONS_NONE : or_options := 0%N.

(** Modelled from the spec: the enumeration [_openraw.DataType] of pixel
    encodings: compressed JPEG, TIFF, PNG, the packed 8-bit RGB pixmap,
    compressed CFA, and the other encodings of the engine. *)
Inductive DataType : Set :=
| OR_DATA_TYPE_PIXMAP_8RGB
| OR_DATA_TYPE_JPEG
| OR_DATA_TYPE_TIFF
| OR_DATA_TYPE_PNG
| OR_DATA_TYPE_COMPRESSED_CFA
| OR_DATA_TYPE_OTHER (tag : N).

#[global] Instance DataType_eq_dec : EqDecision DataType.
Proof. solve_decision. Defined.

Definition DataType_to_sum (t : DataType) : nat + N :=
  match t with
  | OR_DATA_TYPE_PIXMAP_8RGB => inl 0%nat
  | OR_DATA_TYPE_JPEG => inl 1%nat
  | OR_DATA_TYPE_TIFF => inl 2%nat
  | OR_DATA_TYPE_PNG => inl 3%nat
  | OR_DATA_TYPE_COMPRESSED_CFA => inl 4%nat
  | OR_DATA_TYPE_OTHER tag => inr tag
  end.

Definition DataType_of_sum (s : nat + N) : DataType :=
  match s with
  | inl 0%nat => OR_DATA_TYPE_PIXMAP_8RGB
  | inl 1%nat => OR_DATA_TYPE_JPEG
  | inl 2%nat => OR_DATA_TYPE_TIFF
  | inl 3%nat => OR_DATA_TYPE_PNG
  | inl _ => OR_DATA_TYPE_COMPRESSED_CFA
  | inr tag => OR_DATA_TYPE_OTHER tag
  end.

#[global] Instance DataType_countable : Countable DataType.
Proof.
  apply (inj_countable' DataType_to_sum DataType_of_sum).
  intros []; reflexivity.
Defined.

(** Modelled from the spec: the bitmap struct of the engine, with the
    fields data type, width, height, bits per channel, byte length, byte
    buffer and, used by raw data only, min, max and compression. *)
Record BitmapData : Set := mkBitmapData {
  bd_dataType : DataType;
  bd_x : N;
  bd_y : N;
  bd_bpc : N;
  bd_size : N;
  bd_data : string;
  bd_min : N;
  bd_max : N;
  bd_compression : N;
}.

(** Modelled from the spec: the bitmap that [_openraw.Thumbnail()] and
    [_openraw.RawData()] construct, which the engine has not filled yet; by
    the invariant of the struct its byte length is that of its buffer, and
    the buffer is empty. *)
Definition blank : BitmapData :=
  mkBitmapData (OR_DATA_TYPE_OTHER 0) 0 0 0 0 "" 0 0 0.

(** The mutators of the struct that the test-suite exercises. *)
Inductive bitmap_op : Set :=
| setDataType (t : DataType)
| setDimensions (x y : N)
| setBpc (bpc : N)
| setData (data : string)
| setMin (m : N)
| setMax (m : N)
| setCompression (c : N).

(** Modelled from the spec: each mutator writes its own fields and nothing
    else; [setData] installs the buffer together with its byte length. *)
Definition apply_op (op : bitmap_op) (b : BitmapData) : BitmapData :=
  match op with
  | setDataType t =>
      mkBitmapData t (bd_x b) (bd_y b) (bd_bpc b) (bd_size b) (bd_data b)
                   (bd_min b) (bd_max b) (bd_compression b)
  | setDimensions x y =>
      mkBitmapData (bd_dataType b) x y (bd_bpc b) (bd_size b) (bd_data b)
                   (bd_min b) (bd_max b) (bd_compression b)
  | setBpc bpc =>
      mkBitmapData (bd_dataType b) (bd_x b) (bd_y b) bpc (bd_size b) (bd_data b)
                   (bd_min b) (bd_max b) (bd_compression b)
  | setData data =>
      mkBitmapData (bd_dataType b) (bd_x b) (bd_y b) (bd_bpc b)
                   (N.of_nat (String.length data)) data
                   (bd_min b) (bd_max b) (bd_compression b)
  | setMin m =>
      mkBitmapData (bd_dataType b) (bd_x b) (bd_y b) (bd_bpc b) (bd_size b)
                   (bd_data b) m (bd_max b) (bd_compression b)
  | setMax m =>
      mkBitmapData (bd_dataType b) (bd_x b) (bd_y b) (bd_bpc b) (bd_size b)
                   (bd_data b) (bd_min b) m (bd_compression b)
  | setCompression c =>
      mkBitmapData (bd_dataType b) (bd_x b) (bd_y b) (bd_bpc b) (bd_size b)
                   (bd_data b) (bd_min b) (bd_max b) c
  end.

Definition apply_ops (ops : list bitmap_op) (b : BitmapData) : BitmapData :=
  fold_left (fun acc op => apply_op op acc) ops b.

(** A decode session of the engine. *)
Definition handle : Set := N.

(** Modelled from the spec: the contract of the native decoding engine.
    Opening yields a session or nothing; the queries are pure; an
    extraction answers with an error code and fills the bitmap it was
    handed through the struct's mutators, as a function of the session and
    of the request alone. [enum_name] is the name Boost.Python prints for a
    data type. *)
Record Engine : Type := mkEngine {
  newRawFile : string -> Type_ -> option handle;
  newRawFileFromMemory : string -> Type_ -> option handle;
  type : handle -> Type_;
  getOrientation : handle -> Z;
  listThumbnailSizes : handle -> list N;
  getThumbnail : handle -> N -> or_error * list bitmap_op;
  getRawData : handle -> or_options -> or_error * list bitmap_op;
  enum_name : DataType -> string;
}.

End _openraw.
Export _openraw.

(** ** The world the Python code runs in *)

(** Native bitmap objects live in a store; a Python reference to one is its
    index. The file store takes every write: the sources leave I/O errors
    ([IOError] from [open] or [write], as for a destination directory that
    does not exist) to propagate, and they are not modelled, so that what is
    stated of a file written holds for a destination that can be written to.
    A file is known by the path string handed to [open]: two spellings of
    the path of one file, or two links to it, are two entries. *)
Definition loc : Set := nat.

Inductive engine_call : Set :=
| call_newRawFile (path : string) (hint : Type_)
| call_newRawFileFromMemory (data : string) (hint : Type_)
| call_listThumbnailSizes (h : handle)
| call_getThumbnail (h : handle) (width : N) (out : loc)
| call_getRawData (h : handle) (out : loc) (options : or_options).

Inductive browser_call : Set :=
| open_new (path : string)
| open_new_tab (path : string).

Record World : Type := mkWorld {
  heap : list BitmapData;          (* the native bitmap objects *)
  files : gmap string string;      (* file contents by path *)
  stderr : string;                 (* bytes written to sys.stderr *)
  browser : list browser_call;     (* calls to the webbrowser module *)
  calls : list engine_call;        (* calls made to the engine, in order *)
}.

Definition empty_world : World := mkWorld [] ∅ "" [] [].

(** What the process finds around it: the engine, the answer of
    [mimetypes.guess_extension(type, strict=False)], and [os.getcwd()]. *)
Record Env : Type := mkEnv {
  engine : Engine;
  guess_extension : string -> option string;
  getcwd : string;
}.

(** Python exceptions that the modelled code can raise. [ReferenceError]
    stands for the use of a reference to no native object. *)
Inductive exn : Set :=
| Error (or_error_code : option or_error)
| AttributeError
| ReferenceError.

Inductive outcome (A : Type) : Type :=
| Returns (a : A)
| Raises (e : exn).
Arguments Returns {A} a.
Arguments Raises {A} e.

Definition M (A : Type) : Type := World -> outcome A * World.

Definition ret {A} (a : A) : M A := fun w => (Returns a, w).
Definition raise {A} (e : exn) : M A := fun w => (Raises e, w).
Definition bind {A B} (m : M A) (k : A -> M B) : M B :=
  fun w =>
    match m w with
    | (Returns a, w') => k a w'
    | (Raises e, w') => (Raises e, w')
    end.

Notation "x <- m ;; k" := (bind m (fun x => k))
  (at level 100, m at next level, right associativity).
Notation "m ;;; k" := (bind m (fun _ => k))
  (at level 100, right associativity).

(** [for x in xs: body]. *)
Fixpoint for_each {A} (xs : list A) (body : A -> M unit) : M unit :=
  match xs with
  | [] => ret tt
  | x :: rest => body x ;;; for_each rest body
  end.

(** [[f(x) for x in xs]]. *)
Fixpoint list_comprehension {A B} (f : A -> M B) (xs : list A) : M (list B) :=
  match xs with
  | [] => ret []
  | x :: rest =>
      y <- f x ;;
      ys <- list_comprehension f rest ;;
      ret (y :: ys)
  end.

(** *** Primitive effects *)

Definition log_call (c : engine_call) : M unit :=
  fun w => (Returns tt,
            mkWorld (heap w) (files w) (stderr w) (browser w) (calls w ++ [c])).

(** Construction of a native bitmap object. *)
Definition new_native : M loc :=
  fun w => (Returns (length (heap w)),
            mkWorld (heap w ++ [blank]) (files w) (stderr w) (browser w) (calls w)).

(** A call of a native getter on the object behind [l]. *)
Definition native_get {A} (f : BitmapData -> A) (l : loc) : M A :=
  fun w =>
    match heap w !! l with
    | Some b => (Returns (f b), w)
    | None => (Raises ReferenceError, w)
    end.

(** A call of native mutators on the object behind [l]. *)
Definition native_apply (ops : list bitmap_op) (l : loc) : M unit :=
  fun w =>
    match heap w !! l with
    | Some b =>
        (Returns tt,
         mkWorld (<[l := apply_ops ops b]> (heap w)) (files w) (stderr w)
                 (browser w) (calls w))
    | None => (Raises ReferenceError, w)
    end.

(** [a.swap(b)] on two native bitmaps. *)
Definition native_swap (l1 l2 : loc) : M unit :=
  fun w =>
    match heap w !! l1, heap w !! l2 with
    | Some b1, Some b2 =>
        (Returns tt,
         mkWorld (<[l2 := b1]> (<[l1 := b2]> (heap w))) (files w) (stderr w)
                 (browser w) (calls w))
    | _, _ => (Raises ReferenceError, w)
    end.

(** [open(path, 'wb')]: the file exists and is empty afterwards. The
    [IOError] of a path that cannot be opened is not modelled. *)
Definition file_open_wb (path : string) : M string :=
  fun w => (Returns path,
            mkWorld (heap w) (<[path := ""]> (files w)) (stderr w) (browser w)
                    (calls w)).

(** [f.write(s)]: the bytes are appended; no [IOError] either. *)
Definition file_write (f : string) (s : string) : M unit :=
  fun w => (Returns tt,
            mkWorld (heap w)
                    (<[f := default "" (files w !! f) +:+ s]> (files w))
                    (stderr w) (browser w) (calls w)).

(** [f.close()]. *)
Definition file_close (f : string) : M unit := ret tt.

(** [print >> sys.stderr, s]: the text and a newline. *)
Definition print_stderr (s : string) : M unit :=
  fun w => (Returns tt,
            mkWorld (heap w) (files w) (stderr w +:+ s +:+ Py.nl) (browser w)
                    (calls w)).

Definition webbrowser (c : browser_call) : M unit :=
  fun w => (Returns tt,
            mkWorld (heap w) (files w) (stderr w) (browser w ++ [c]) (calls w)).

(** ** [openraw/__init__.py]: the facade *)
Module openraw.

(** [DATATYPE_TO_MIMETYPE]. *)
Definition DATATYPE_TO_MIMETYPE : gmap DataType string :=
  <[OR_DATA_TYPE_JPEG := "image/jpeg"]>
    (<[OR_DATA_TYPE_TIFF := "image/tiff"]>
       (<[OR_DATA_TYPE_PNG := "image/png"]> ∅)).

(** An instance of [openraw.RawFile]; its attribute [_rawfile] is whatever
    the constructor was given, a native session or [None]. *)
Record RawFile : Set := mkRawFile { _rawfile : option handle }.

(** An instance of [openraw.Bitmap] (or of its subclass [Thumbnail], which
    adds nothing): a reference to a native bitmap. *)
Record Bitmap : Set := mkBitmap { _bitmap : loc }.

Definition Thumbnail : Set := Bitmap.

(** An instance of [openraw.RawData]: it keeps the native object under
    [_rawdata] and, through [Bitmap.__init__], under [_bitmap] as well. *)
Record RawData : Set := mkRawData { _rawdata : loc; as_Bitmap :> Bitmap }.

Definition RawFile__init (rawfile : option handle) : RawFile :=
  mkRawFile rawfile.

Definition Bitmap__init (bitmap : loc) : Bitmap := mkBitmap bitmap.

Definition Thumbnail__init (thumbnail : loc) : Thumbnail :=
  Bitmap__init thumbnail.

Definition RawData__init (rawdata : loc) : RawData :=
  mkRawData rawdata (Bitmap__init rawdata).

(** [self._rawfile.method(...)]: an attribute of [None] cannot be called. *)
Definition with_rawfile {A} (self : RawFile) (k : handle -> M A) : M A :=
  match _rawfile self with
  | Some h => k h
  | None => raise AttributeError
  end.

Section Facade.
Context (env : Env).

(** [RawFile.from_path]. *)
Definition from_path (path : string) (raw_type_hint : Type_) : M RawFile :=
  log_call (call_newRawFile path raw_type_hint) ;;;
  let rawfile := newRawFile (engine env) path raw_type_hint in
  match rawfile with
  | None => raise (Error None)
  | Some _ => ret (RawFile__init rawfile)
  end.

(** [RawFile.from_string]. *)
Definition from_string (data : string) (raw_type_hint : Type_) : M RawFile :=
  log_call (call_newRawFileFromMemory data raw_type_hint) ;;;
  let rawfile := newRawFileFromMemory (engine env) data raw_type_hint in
  match rawfile with
  | None => raise (Error None)
  | Some _ => ret (RawFile__init rawfile)
  end.

Definition get_type (self : RawFile) : M Type_ :=
  with_rawfile self (fun h => ret (type (engine env) h)).

Definition get_orientation (self : RawFile) : M Z :=
  with_rawfile self (fun h => ret (getOrientation (engine env) h)).

Definition get_thumbnail_widths (self : RawFile) : M (list N) :=
  with_rawfile self (fun h =>
    log_call (call_listThumbnailSizes h) ;;;
    ret (listThumbnailSizes (engine env) h)).

(** [RawFile.get_thumbnail]. *)
Definition get_thumbnail (self : RawFile) (requested_width : N) : M Thumbnail :=
  thumbnail <- new_native ;;
  with_rawfile self (fun h =>
    log_call (call_getThumbnail h requested_width thumbnail) ;;;
    let '(error, filled) := getThumbnail (engine env) h requested_width in
    native_apply filled thumbnail ;;;
    if decide (error ≠ OR_ERROR_NONE)
    then raise (Error (Some error))
    else ret (Thumbnail__init thumbnail)).

(** [RawFile.get_thumbnails]. *)
Definition get_thumbnails (self : RawFile) : M (list Thumbnail) :=
  widths <- get_thumbnail_widths self ;;
  list_comprehension (get_thumbnail self) widths.

(** [RawFile.get_raw_data]. *)
Definition get_raw_data (self : RawFile) (options : or_options) : M RawData :=
  rawdata <- new_native ;;
  with_rawfile self (fun h =>
    log_call (call_getRawData h rawdata options) ;;;
    let '(error, filled) := getRawData (engine env) h options in
    native_apply filled rawdata ;;;
    if decide (error ≠ OR_ERROR_NONE)
    then raise (Error (Some error))
    else ret (RawData__init rawdata)).

End Facade.

Definition get_data_type (self : Bitmap) : M DataType :=
  native_get bd_dataType (_bitmap self).

Definition get_size (self : Bitmap) : M N :=
  native_get bd_size (_bitmap self).

Definition get_data (self : Bitmap) : M string :=
  native_get bd_data (_bitmap self).

Definition get_width (self : Bitmap) : M N :=
  native_get bd_x (_bitmap self).

Definition get_height (self : Bitmap) : M N :=
  native_get bd_y (_bitmap self).

Definition get_bits_per_channel (self : Bitmap) : M N :=
  native_get bd_bpc (_bitmap self).

End openraw.

(** ** [demo/thumb.py]: the extract-thumbnails driver *)
Module thumb.
Import openraw.

(** [write_rgb8pixmap_to_stream]; the stream is a [cStringIO] buffer, given
    and returned by its content. *)
Definition write_rgb8pixmap_to_stream (bitmap : Bitmap) (stream : string)
    : M string :=
  let stream := stream +:+ ("P6" +:+ Py.nl) in
  width <- get_width bitmap ;;
  height <- get_height bitmap ;;
  let stream :=
    stream +:+ (Py.format_d (Z.of_N width) +:+ " "
                +:+ Py.format_d (Z.of_N height) +:+ Py.nl) in
  let stream := stream +:+ ("255" +:+ Py.nl) in
  data <- get_data bitmap ;;
  ret (stream +:+ data).

(** The text printed for a thumbnail that cannot be extracted:
    the format [Cannot extract thumbnail of type "%s" from %r (%dx%d) ]. *)
Definition cannot_extract (type_name : string) (rawfile_path : string)
    (width height : N) : string :=
  "Cannot extract thumbnail of type "
  +:+ String Py.dquote (type_name +:+ String Py.dquote
        (" from " +:+ Py.repr rawfile_path
         +:+ " (" +:+ Py.format_d (Z.of_N width)
         +:+ "x" +:+ Py.format_d (Z.of_N height) +:+ ") ")).

Section Driver.
Context (env : Env).

(** The body of the loop of [extract_thumbnails], for one thumbnail. *)
Definition extract_thumbnail (rawfile_path destination_path : string)
    (open_in_browser : bool) (thumbnail_base_name : string)
    (thumbnail : Thumbnail) : M unit :=
  data_type <- get_data_type thumbnail ;;
  (* [None] stands for the [continue] of the [except KeyError] branch *)
  chosen <-
    (if decide (data_type = OR_DATA_TYPE_PIXMAP_8RGB) then
       data <- write_rgb8pixmap_to_stream thumbnail "" ;;
       ret (Some (Some ".ppm", data))
     else
       data_type <- get_data_type thumbnail ;;
       match DATATYPE_TO_MIMETYPE !! data_type with
       | None =>
           data_type <- get_data_type thumbnail ;;
           width <- get_width thumbnail ;;
           height <- get_height thumbnail ;;
           print_stderr (cannot_extract (enum_name (engine env) data_type)
                                        rawfile_path width height) ;;;
           ret None
       | Some mime_type =>
           let extension := guess_extension env mime_type in
           data <- get_data thumbnail ;;
           ret (Some (extension, data))
       end) ;;
  match chosen with
  | None => ret tt
  | Some (extension, data) =>
      width <- get_width thumbnail ;;
      height <- get_height thumbnail ;;
      let thumbnail_name :=
        thumbnail_base_name +:+ "-" +:+ Py.format_d (Z.of_N width)
        +:+ "x" +:+ Py.format_d (Z.of_N height) +:+ Py.format_s extension in
      let thumbnail_path :=
        posixpath.abspath (getcwd env)
          (posixpath.join destination_path thumbnail_name) in
      f <- file_open_wb thumbnail_path ;;
      file_write f data ;;;
      file_close f ;;;
      if open_in_browser then webbrowser (open_new_tab thumbnail_path)
      else ret tt
  end.

(** [extract_thumbnails]. *)
Definition extract_thumbnails (rawfile_path destination_path : string)
    (open_in_browser : bool) : M unit :=
  raw_file <- from_path env rawfile_path OR_RAWFILE_TYPE_UNKNOWN ;;
  let thumbnail_base_name :=
    fst (posixpath.splitext (posixpath.basename rawfile_path)) in
  thumbnails <- get_thumbnails env raw_file ;;
  for_each thumbnails
    (extract_thumbnail rawfile_path destination_path open_in_browser
                       thumbnail_base_name).

(** The loop of [main] over the files named on the command line. *)
Definition main (args : list string) (destination : string) (browser : bool)
    : M unit :=
  for_each args
    (fun raw_file => extract_thumbnails raw_file destination browser).

End Driver.
End thumb.

(** ** [demo/cfa.py]: the extract-raw-data driver *)
Module cfa.
Import openraw.

Section Driver.
Context (env : Env).

(** [extract_raw_image]. *)
Definition extract_raw_image (rawfile_path destination_path : string)
    (open_in_browser : bool) : M unit :=
  raw_file <- from_path env rawfile_path OR_RAWFILE_TYPE_UNKNOWN ;;
  raw_data <- get_raw_data env raw_file OR_OPTIONS_NONE ;;
  let extract_base_name :=
    fst (posixpath.splitext (posixpath.basename rawfile_path)) in
  let image_path :=
    posixpath.abspath (getcwd env)
      (posixpath.join destination_path (extract_base_name +:+ ".pgm")) in
  f <- file_open_wb image_path ;;
  file_write f ("P5" +:+ Py.nl) ;;;
  width <- get_width raw_data ;;
  height <- get_height raw_data ;;
  file_write f (Py.format_d (Z.of_N width) +:+ " "
                +:+ Py.format_d (Z.of_N height) +:+ Py.nl) ;;;
  bits_per_channel <- get_bits_per_channel raw_data ;;
  let colors_per_channel := Py.pow2 bits_per_channel - 1 in
  file_write f (Py.format_d colors_per_channel +:+ Py.nl) ;;;
  data <- get_data raw_data ;;
  file_write f data ;;;
  file_close f ;;;
  if open_in_browser then webbrowser (open_new image_path) else ret tt.

(** The loop of [main] over the files named on the command line. *)
Definition main (args : list string) (destination : string) (browser : bool)
    : M unit :=
  for_each args
    (fun raw_file => extract_raw_image raw_file destination browser).

End Driver.
End cfa.

(** ** Vocabulary of the statements *)

Arguments Py.format_d : simpl never.
Arguments Py.format_s : simpl never.
Arguments Py.repr : simpl never.
Arguments Py.pow2 : simpl never.
Arguments posixpath.basename : simpl never.
Arguments posixpath.splitext : simpl never.
Arguments posixpath.join : simpl never.
Arguments posixpath.abspath : simpl never.
Arguments thumb.cannot_extract : simpl never.

(** The world after a whole file was written, and the viewer launched or
    not. *)
Definition wrote (path content : string) (launched : list browser_call)
    (w : World) : World :=
  mkWorld (heap w) (<[path := content]> (files w)) (stderr w)
          (browser w ++ launched) (calls w).

(** The world after one line went to the error stream. *)
Definition complained (line : string) (w : World) : World :=
  mkWorld (heap w) (files w) (stderr w +:+ line +:+ Py.nl) (browser w) (calls w).

(** The bytes of a packed-RGB portable pixmap, as the format lays them out:
    magic, dimensions, maximal sample value 255, samples. *)
Definition ppm_bytes (width height : N) (data : string) : string :=
  "P6" +:+ Py.nl
  +:+ Py.format_d (Z.of_N width) +:+ " " +:+ Py.format_d (Z.of_N height) +:+ Py.nl
  +:+ "255" +:+ Py.nl
  +:+ data.

(** The name of the file a thumbnail goes to. *)
Definition thumbnail_file (rawfile_path : string) (width height : N)
    (suffix : string) : string :=
  fst (posixpath.splitext (posixpath.basename rawfile_path))
  +:+ "-" +:+ Py.format_d (Z.of_N width)
  +:+ "x" +:+ Py.format_d (Z.of_N height) +:+ suffix.

(** Where a file of that name lands for the destination directory given. *)
Definition destination_file (env : Env) (destination_path name : string)
    : string :=
  posixpath.abspath (getcwd env) (posixpath.join destination_path name).

Definition launch (open_in_browser : bool) (c : browser_call)
    : list browser_call :=
  if open_in_browser then [c] else [].

(** The widths the selector was asked for, read off a log of engine calls. *)
Definition selector_widths (log : list engine_call) : list N :=
  omap (fun c => match c with
                 | call_getThumbnail _ width _ => Some width
                 | _ => None
                 end) log.

(** The engine calls made by a computation started in [w]. *)
Definition calls_during {A} (m : M A) (w : World) : list engine_call :=
  drop (length (calls w)) (calls (snd (m w))).

(** Enumeration of every width: [get_thumbnails] returns a list, as long as
    the list of widths; the selector was called once per width, in the order
    of the widths; and the element at each position wraps the bitmap the
    engine produced for the width at that position. *)
Definition enumerates_every_width (env : Env) (self : openraw.RawFile)
    (h : handle) (w : World) : Prop :=
  let widths := listThumbnailSizes (engine env) h in
  let run := openraw.get_thumbnails env self w in
  exists thumbnails : list openraw.Thumbnail,
    fst run = Returns thumbnails
    /\ length thumbnails = length widths
    /\ selector_widths (calls_during (openraw.get_thumbnails env self) w) = widths
    /\ forall (i : nat) (width : N),
         widths !! i = Some width ->
         exists t : openraw.Thumbnail,
           thumbnails !! i = Some t
           /\ heap (snd run) !! openraw._bitmap t
              = Some (apply_ops (snd (getThumbnail (engine env) h width)) blank).



(** The byte-length invariant of one native bitmap, and of all of them. *)
Definition consistent (b : BitmapData) : Prop :=
  N.of_nat (String.length (bd_data b)) = bd_size b.

Definition heap_consistent (w : World) : Prop := Forall consistent (heap w).

(** A computation that keeps the invariant. *)
Definition preserves {A} (m : M A) : Prop :=
  forall w, heap_consistent w -> heap_consistent (snd (m w)).

(** What a client of the package can do, one step at a time: use the facade,
    run a driver, or call a mutator of a native bitmap it holds (as in
    [raw_data._rawdata.setCompression(5)]). *)
Inductive action : Type :=
| do_from_path (path : string) (raw_type_hint : Type_)
| do_from_string (data : string) (raw_type_hint : Type_)
| do_get_thumbnail (self : openraw.RawFile) (requested_width : N)
| do_get_thumbnails (self : openraw.RawFile)
| do_get_raw_data (self : openraw.RawFile) (options : or_options)
| do_mutate (target : loc) (op : bitmap_op)
| do_swap (one other : loc)
| do_extract_thumbnails (rawfile_path destination_path : string)
                        (open_in_browser : bool)
| do_extract_raw_image (rawfile_path destination_path : string)
                       (open_in_browser : bool).

Definition perform (env : Env) (a : action) : M unit :=
  match a with
  | do_from_path path hint => openraw.from_path env path hint ;;; ret tt
  | do_from_string data hint => openraw.from_string env data hint ;;; ret tt
  | do_get_thumbnail self width => openraw.get_thumbnail env self width ;;; ret tt
  | do_get_thumbnails self => openraw.get_thumbnails env self ;;; ret tt
  | do_get_raw_data self options => openraw.get_raw_data env self options ;;; ret tt
  | do_mutate target op => native_apply [op] target
  | do_swap one other => native_swap one other
  | do_extract_thumbnails path destination open_in_browser =>
      thumb.extract_thumbnails env path destination open_in_browser
  | do_extract_raw_image path destination open_in_browser =>
      cfa.extract_raw_image env path destination open_in_browser
  end.

(** A session of such steps; an exception ends a step, not the session. *)
Definition run_actions (env : Env) (steps : list action) (w : World) : World :=
  fold_left (fun w a => snd (perform env a w)) steps w.

(** The mutators that do not install a buffer. *)
Definition leaves_buffer (op : bitmap_op) : bool :=
  match op with
  | setData _ => false
  | _ => true
  end.

(** ** Concrete inputs

    A synthetic raw file whose engine knows four embedded thumbnails: a
    packed RGB pixmap of 160 by 120 pixels, one of an encoding without MIME
    type, a TIFF and a JPEG; any other width fails with an error code. *)
Definition synthetic_getThumbnail (width : N) : or_error * list bitmap_op :=
  if (width =? 160)%N then
    (OR_ERROR_NONE,
     [setDataType OR_DATA_TYPE_PIXMAP_8RGB; setDimensions 160 120; setBpc 8;
      setData "RGBrgb"])
  else if (width =? 7)%N then
    (OR_ERROR_NONE,
     [setDataType OR_DATA_TYPE_COMPRESSED_CFA; setDimensions 7 5; setData "cfa"])
  else if (width =? 42)%N then
    (OR_ERROR_NONE,
     [setDataType OR_DATA_TYPE_TIFF; setDimensions 42 28; setBpc 8; setData "II*"])
  else if (width =? 1936)%N then
    (OR_ERROR_NONE,
     [setDataType OR_DATA_TYPE_JPEG; setDimensions 1936 1288; setBpc 8;
      setData "JFIF"])
  else (OR_ERROR_OTHER 5, [setDataType OR_DATA_TYPE_JPEG]).

Definition synthetic_enum_name (t : DataType) : string :=
  match t with
  | OR_DATA_TYPE_PIXMAP_8RGB => "OR_DATA_TYPE_PIXMAP_8RGB"
  | OR_DATA_TYPE_JPEG => "OR_DATA_TYPE_JPEG"
  | OR_DATA_TYPE_TIFF => "OR_DATA_TYPE_TIFF"
  | OR_DATA_TYPE_PNG => "OR_DATA_TYPE_PNG"
  | OR_DATA_TYPE_COMPRESSED_CFA => "OR_DATA_TYPE_COMPRESSED_CFA"
  | OR_DATA_TYPE_OTHER tag => Py.format_d (Z.of_N tag)
  end.

Definition synthetic_engine (widths : list N) : Engine :=
  mkEngine
    (fun path _ => if String.eqb path "images/duck.cr2" then Some 1%N else None)
    (fun data _ => if String.eqb data "II*duck" then Some 2%N else None)
    (fun _ => OR_RAWFILE_TYPE_CR2)
    (fun _ => 1)
    (fun _ => widths)
    (fun _ => synthetic_getThumbnail)
    (fun _ options =>
       if (options =? 0)%N then
         (OR_ERROR_NONE,
          [setDimensions 3944 2622; setBpc 14; setMin 0; setMax 15000;
           setCompression 0; setData "sensor"])
       else (OR_ERROR_OTHER 6, []))
    synthetic_enum_name.

(** A system whose MIME tables know JPEG and PNG but not TIFF. *)
Definition synthetic_guess_extension (mime_type : string) : option string :=
  if String.eqb mime_type "image/jpeg" then Some ".jpe"
  else if String.eqb mime_type "image/png" then Some ".png"
  else None.

(** The file lists five widths, the first one twice. *)
Definition synthetic_env : Env :=
  mkEnv (synthetic_engine [160; 7; 42; 1936; 160]%N)
        synthetic_guess_extension "/home/user".

(** The run of the thumbnail driver on the synthetic file, stage by stage:
    after opening, after the enumeration, and in front of each thumbnail. *)
Definition synthetic_body : openraw.Thumbnail -> M unit :=
  thumb.extract_thumbnail synthetic_env "images/duck.cr2" "out" true
    (fst (posixpath.splitext (posixpath.basename "images/duck.cr2"))).

Definition synthetic_raw_file : openraw.RawFile := openraw.mkRawFile (Some 1%N).

Definition synthetic_opened : World :=
  snd (openraw.from_path synthetic_env "images/duck.cr2"
         OR_RAWFILE_TYPE_UNKNOWN empty_world).

Definition synthetic_enumerated : World :=
  snd (openraw.get_thumbnails synthetic_env synthetic_raw_file synthetic_opened).

Definition synthetic_thumbnails : list openraw.Thumbnail :=
  map openraw.mkBitmap [0; 1; 2; 3; 4]%nat.

Definition synthetic_before (n : nat) : World :=
  snd (for_each (take n synthetic_thumbnails) synthetic_body synthetic_enumerated).

(** A file whose second thumbnail cannot be extracted. *)
Definition failing_env : Env :=
  mkEnv (synthetic_engine [160; 500; 42]%N) synthetic_guess_extension "/home/user".


(** The raw data of the synthetic file once extracted into an empty world. *)
Definition synthetic_raw_extracted : World :=
  snd (openraw.get_raw_data synthetic_env synthetic_raw_file OR_OPTIONS_NONE
         synthetic_opened).

(** A session on the synthetic file: extract the raw data, set its
    compression, extract a thumbnail, swap the two, install a new buffer. *)
Definition synthetic_session : list action :=
  [do_get_raw_data synthetic_raw_file OR_OPTIONS_NONE;
   do_mutate 0%nat (setCompression 5);
   do_get_thumbnail synthetic_raw_file 160;
   do_swap 0%nat 1%nat;
   do_mutate 1%nat (setData "12345")].

(** ** Vocabulary of the further statements *)

(** What the body of the loop of [extract_thumbnails] settles on for one
    thumbnail, read off its branches (thumb.py, lines 38 to 58): for the
    packed 8-bit RGB pixmap the bytes of [write_rgb8pixmap_to_stream] and
    the suffix .ppm; for a data type in [DATATYPE_TO_MIMETYPE] the byte
    buffer and, as suffix, ['%s'] of whatever [mimetypes.guess_extension]
    answers for the MIME type, [None] included; for any other data type
    nothing (the [continue] branch). *)
Definition thumbnail_encoding (env : Env) (b : BitmapData)
    : option (string * string) :=
  match bd_dataType b with
  | OR_DATA_TYPE_JPEG =>
      Some (bd_data b, Py.format_s (guess_extension env "image/jpeg"))
  | OR_DATA_TYPE_TIFF =>
      Some (bd_data b, Py.format_s (guess_extension env "image/tiff"))
  | OR_DATA_TYPE_PNG =>
      Some (bd_data b, Py.format_s (guess_extension env "image/png"))
  | OR_DATA_TYPE_PIXMAP_8RGB =>
      Some (ppm_bytes (bd_x b) (bd_y b) (bd_data b), ".ppm")
  | _ => None
  end.

(** What the body of the loop makes of the world for one thumbnail (lines
    38 to 72): the bytes written under the name basename-WIDTHxHEIGHT plus
    suffix and the path handed to the viewer if asked, or one line on the
    error stream in the [continue] branch. *)
Definition thumbnail_export (env : Env) (rawfile_path destination_path : string)
    (open_in_browser : bool) (w : World) (b : BitmapData) : World :=
  match thumbnail_encoding env b with
  | Some (bytes, suffix) =>
      let path :=
        destination_file env destination_path
          (thumbnail_file rawfile_path (bd_x b) (bd_y b) suffix) in
      wrote path bytes (launch open_in_browser (open_new_tab path)) w
  | None =>
      complained (thumb.cannot_extract (enum_name (engine env) (bd_dataType b))
                                       rawfile_path (bd_x b) (bd_y b)) w
  end.

(** The lines that go to the error stream for a sequence of thumbnails,
    one per thumbnail that takes the [continue] branch, in their order. *)
Fixpoint thumbnail_diagnostics (env : Env) (rawfile_path : string)
    (bitmaps : list BitmapData) : string :=
  match bitmaps with
  | [] => ""
  | b :: rest =>
      match thumbnail_encoding env b with
      | Some _ => thumbnail_diagnostics env rawfile_path rest
      | None =>
          thumb.cannot_extract (enum_name (engine env) (bd_dataType b))
                               rawfile_path (bd_x b) (bd_y b)
          +:+ Py.nl +:+ thumbnail_diagnostics env rawfile_path rest
      end
  end.

(** The path a thumbnail is written to, unless it takes the [continue]
    branch. *)
Definition thumbnail_target (env : Env) (rawfile_path destination_path : string)
    (b : BitmapData) : option string :=
  match thumbnail_encoding env b with
  | Some (_, suffix) =>
      Some (destination_file env destination_path
              (thumbnail_file rawfile_path (bd_x b) (bd_y b) suffix))
  | None => None
  end.

(** The world once a file was opened and its thumbnails enumerated, all of
    them extracted. *)
Definition enumerated (env : Env) (rawfile_path : string) (h : handle)
    (w : World) : World :=
  let widths := listThumbnailSizes (engine env) h in
  mkWorld
    (heap w
     ++ ((fun width => apply_ops (snd (getThumbnail (engine env) h width)) blank)
           <$> widths))
    (files w) (stderr w) (browser w)
    (calls w
     ++ [call_newRawFile rawfile_path OR_RAWFILE_TYPE_UNKNOWN;
         call_listThumbnailSizes h]
     ++ zip_with (call_getThumbnail h) widths
          (seq (length (heap w)) (length widths))).

(** A file the drivers can deal with: it opens, and every thumbnail it lists
    (resp. its raw data) is extracted. *)
Definition thumbnails_extractable (env : Env) (rawfile_path : string) : Prop :=
  exists h,
    newRawFile (engine env) rawfile_path OR_RAWFILE_TYPE_UNKNOWN = Some h
    /\ Forall (fun width =>
                 fst (getThumbnail (engine env) h width) = OR_ERROR_NONE)
              (listThumbnailSizes (engine env) h).

Definition raw_data_extractable (env : Env) (rawfile_path : string) : Prop :=
  exists h,
    newRawFile (engine env) rawfile_path OR_RAWFILE_TYPE_UNKNOWN = Some h
    /\ fst (getRawData (engine env) h OR_OPTIONS_NONE) = OR_ERROR_NONE.


(** The steps of a client that go through the facade and the drivers only,
    without a call to a mutator of a native bitmap. *)
Definition through_facade (a : action) : bool :=
  match a with
  | do_mutate _ _ | do_swap _ _ => false
  | _ => true
  end.

(** *** Reading the header of a portable anymap

    The header is the magic number, width, height and maximal value in
    decimal, separated by white space; one white-space character ends it and
    the samples follow. *)
Definition is_digit (c : ascii) : bool :=
  ((48 <=? N_of_ascii c) && (N_of_ascii c <=? 57))%N.

Definition is_white (c : ascii) : bool :=
  let n := N_of_ascii c in
  ((n =? 32) || ((9 <=? n) && (n <=? 13)))%N.

Fixpoint span_digits (s : string) : string * string :=
  match s with
  | EmptyString => ("", "")
  | String c r =>
      if is_digit c
      then let (digits, rest) := span_digits r in (String c digits, rest)
      else ("", s)
  end.

Fixpoint skip_white (s : string) : string :=
  match s with
  | String c r => if is_white c then skip_white r else s
  | EmptyString => s
  end.

(** A decimal number in front of [s], and what follows it. *)
Definition read_number (s : string) : option (Z * string) :=
  match span_digits s with
  | (EmptyString, _) => None
  | (digits, rest) =>
      match Py.parse_d digits with
      | Some n => Some (n, rest)
      | None => None
      end
  end.

(** White space, at least one character of it, then a number. *)
Definition read_field (s : string) : option (Z * string) :=
  match s with
  | String c r => if is_white c then read_number (skip_white r) else None
  | EmptyString => None
  end.

(** The magic number (two characters), the three numbers and the samples. *)
Definition read_pnm (s : string) : option (string * Z * Z * Z * string) :=
  match s with
  | String m1 (String m2 r) =>
      match read_field r with
      | Some (width, r) =>
          match read_field r with
          | Some (height, r) =>
              match read_field r with
              | Some (maxval, String c samples) =>
                  if is_white c
                  then Some (String m1 (String m2 ""), width, height, maxval, samples)
                  else None
              | _ => None
              end
          | None => None
          end
      | None => None
      end
  | _ => None
  end.

(** [Bitmap.__repr__] (and [__str__]); the data type prints as Boost.Python
    names it. *)
Definition Bitmap__repr (env : Env) (self : openraw.Bitmap) : M string :=
  data_type <- openraw.get_data_type self ;;
  size <- openraw.get_size self ;;
  width <- openraw.get_width self ;;
  height <- openraw.get_height self ;;
  ret ("<Bitmap data_type=" +:+ enum_name (engine env) data_type
       +:+ " size=" +:+ Py.format_d (Z.of_N size)
       +:+ " width=" +:+ Py.format_d (Z.of_N width)
       +:+ " height=" +:+ Py.format_d (Z.of_N height) +:+ ">").


(** ** Strings and the monad *)

Lemma append_cons (c : ascii) (s t : string) :
  String c s +:+ t = String c (s +:+ t).
Proof. reflexivity. Qed.

Lemma append_nil_l (s : string) : "" +:+ s = s.
Proof. reflexivity. Qed.

Lemma append_nil_r (s : string) : s +:+ "" = s.
Proof.
  induction s as [|c s IH]; [reflexivity|].
  rewrite append_cons, IH. reflexivity.
Qed.

Lemma append_assoc (s t u : string) : (s +:+ t) +:+ u = s +:+ (t +:+ u).
Proof.
  induction s as [|c s IH]; [reflexivity|].
  rewrite !append_cons, IH. reflexivity.
Qed.

Lemma append_length (s t : string) :
  String.length (s +:+ t) = (String.length s + String.length t)%nat.
Proof.
  induction s as [|c s IH]; [reflexivity|].
  rewrite append_cons. simpl. rewrite IH. reflexivity.
Qed.

Lemma bind_returns {A B} (m : M A) (k : A -> M B) (w w' : World) (a : A) :
  m w = (Returns a, w') -> bind m k w = k a w'.
Proof. intros H. unfold bind. rewrite H. reflexivity. Qed.

Lemma then_returns {A B} (m : M A) (k : M B) (w w' : World) (a : A) :
  m w = (Returns a, w') -> (m ;;; k) w = k w'.
Proof. intros H. unfold bind. rewrite H. reflexivity. Qed.

Lemma native_get_lookup {A} (f : BitmapData -> A) (l : loc) (w : World)
    (b : BitmapData) :
  heap w !! l = Some b -> native_get f l w = (Returns (f b), w).
Proof. intros H. unfold native_get. rewrite H. reflexivity. Qed.

Lemma for_each_app {A} (xs ys : list A) (body : A -> M unit) (w : World) :
  for_each (xs ++ ys) body w = (for_each xs body ;;; for_each ys body) w.
Proof.
  revert w. induction xs as [|x xs IH]; intros w; [reflexivity|].
  simpl. unfold bind in *.
  destruct (body x w) as [[[]|e] w1]; [apply IH | reflexivity].
Qed.

Lemma wrote_nothing_launched (path content : string) (w : World) :
  wrote path content [] w =
  mkWorld (heap w) (<[path := content]> (files w)) (stderr w) (browser w) (calls w).
Proof. unfold wrote. rewrite app_nil_r. reflexivity. Qed.

(** ** What one extraction does to the world *)
Section Extraction.
Context (env : Env).
Import openraw.

Lemma insert_fresh {A} (l : list A) (x y : A) :
  <[length l := y]> (l ++ [x]) = l ++ [y].
Proof. induction l as [|a l IH]; simpl; [reflexivity|]. f_equal. exact IH. Qed.

Lemma lookup_fresh {A} (l : list A) (x : A) : (l ++ [x]) !! length l = Some x.
Proof. induction l as [|a l IH]; simpl; [reflexivity|exact IH]. Qed.

(** The whole effect of one call of [get_thumbnail]. *)
Lemma get_thumbnail_run (self : RawFile) (h : handle) (requested_width : N)
    (w : World) :
  _rawfile self = Some h ->
  get_thumbnail env self requested_width w =
  (if decide (fst (getThumbnail (engine env) h requested_width) <> OR_ERROR_NONE)
   then Raises (Error (Some (fst (getThumbnail (engine env) h requested_width))))
   else Returns (mkBitmap (length (heap w))),
   mkWorld
     (heap w ++ [apply_ops (snd (getThumbnail (engine env) h requested_width)) blank])
     (files w) (stderr w) (browser w)
     (calls w ++ [call_getThumbnail h requested_width (length (heap w))])).
Proof.
  intros Hself.
  unfold get_thumbnail, with_rawfile, bind, new_native, log_call. rewrite Hself.
  simpl. destruct (getThumbnail (engine env) h requested_width) as [code filled].
  unfold native_apply. simpl. rewrite lookup_fresh, insert_fresh. simpl.
  destruct (decide (code <> OR_ERROR_NONE)); reflexivity.
Qed.

(** The whole effect of one call of [get_raw_data]. *)
Lemma get_raw_data_run (self : RawFile) (h : handle) (options : or_options)
    (w : World) :
  _rawfile self = Some h ->
  get_raw_data env self options w =
  (if decide (fst (getRawData (engine env) h options) <> OR_ERROR_NONE)
   then Raises (Error (Some (fst (getRawData (engine env) h options))))
   else Returns (RawData__init (length (heap w))),
   mkWorld
     (heap w ++ [apply_ops (snd (getRawData (engine env) h options)) blank])
     (files w) (stderr w) (browser w)
     (calls w ++ [call_getRawData h (length (heap w)) options])).
Proof.
  intros Hself.
  unfold get_raw_data, with_rawfile, bind, new_native, log_call. rewrite Hself.
  simpl. destruct (getRawData (engine env) h options) as [code filled].
  unfold native_apply. simpl. rewrite lookup_fresh, insert_fresh. simpl.
  destruct (decide (code <> OR_ERROR_NONE)); reflexivity.
Qed.




End Extraction.

(** ** The builtins on examples *)

Example format_d_examples :
  Py.format_d 16383 = "16383" /\ Py.format_d 0 = "0" /\ Py.format_d (-5) = "-5"
  /\ Py.format_d (Py.pow2 14 - 1) = "16383" /\ Py.format_s None = "None".
Proof. repeat split; reflexivity. Qed.

Example repr_examples :
  Py.repr "images/duck.cr2" = String Py.squote ("images/duck.cr2" +:+ String Py.squote "")
  /\ Py.repr (String Py.squote "a")
     = String Py.dquote (String Py.squote ("a" +:+ String Py.dquote ""))
  /\ Py.repr (String Py.lf "") = String Py.squote (String Py.backslash ("n" +:+ String Py.squote ""))
  /\ Py.repr (String "127"%char "")
     = String Py.squote (String Py.backslash ("x7f" +:+ String Py.squote "")).
Proof. repeat split; reflexivity. Qed.

Example basename_examples :
  posixpath.basename "images/duck.cr2" = "duck.cr2"
  /\ posixpath.basename "duck.cr2" = "duck.cr2"
  /\ posixpath.basename "images/" = "".
Proof. repeat split; reflexivity. Qed.

Example splitext_examples :
  posixpath.splitext "duck.cr2" = ("duck", ".cr2")
  /\ posixpath.splitext "duck" = ("duck", "")
  /\ posixpath.splitext ".hidden" = (".hidden", "")
  /\ posixpath.splitext "a.tar.gz" = ("a.tar", ".gz")
  /\ posixpath.splitext "a.b/c" = ("a.b/c", "").
Proof. repeat split; reflexivity. Qed.

Example join_examples :
  posixpath.join "." "duck.pgm" = "./duck.pgm"
  /\ posixpath.join "out/" "duck.pgm" = "out/duck.pgm"
  /\ posixpath.join "" "duck.pgm" = "duck.pgm"
  /\ posixpath.join "out" "/tmp/duck.pgm" = "/tmp/duck.pgm".
Proof. repeat split; reflexivity. Qed.

Example abspath_examples :
  posixpath.abspath "/home/user" "./duck.pgm" = "/home/user/duck.pgm"
  /\ posixpath.abspath "/home/user" "out/../x//duck.pgm" = "/home/user/x/duck.pgm"
  /\ posixpath.abspath "/home/user" "/tmp/./duck.pgm" = "/tmp/duck.pgm"
  /\ posixpath.abspath "/home/user" "../../../duck.pgm" = "/duck.pgm"
  /\ posixpath.abspath "/home/user" "//srv/duck.pgm" = "//srv/duck.pgm"
  /\ posixpath.abspath "/home/user" "" = "/home/user".
Proof. repeat split; vm_compute; reflexivity. Qed.

(** ** Paths and file names *)
Section PathFacts.
Implicit Types (c : ascii) (s a b name : string).

Lemma contains_app c a b :
  Py.contains c (a +:+ b) = Py.contains c a || Py.contains c b.
Proof.
  induction a as [|x a IH]; [reflexivity|].
  rewrite append_cons. simpl. rewrite IH, orb_assoc. reflexivity.
Qed.

Lemma split_nonempty c s : Py.split c s <> [].
Proof.
  destruct s as [|x s]; simpl; [discriminate|].
  destruct (Ascii.eqb x c); [discriminate|].
  destruct (Py.split c s); discriminate.
Qed.

Lemma split_absent c s : Py.contains c s = false -> Py.split c s = [s].
Proof.
  induction s as [|x s IH]; simpl; [reflexivity|].
  intros H. apply orb_false_iff in H as [Hx Hs].
  rewrite Hx, (IH Hs). reflexivity.
Qed.

Lemma split_app_sep c a b :
  Py.split c (a +:+ String c b) = Py.split c a ++ Py.split c b.
Proof.
  induction a as [|x a IH].
  - rewrite append_nil_l. simpl. rewrite Ascii.eqb_refl. reflexivity.
  - rewrite append_cons. simpl. rewrite IH.
    destruct (Ascii.eqb x c); [reflexivity|].
    pose proof (split_nonempty c a) as Hne.
    destruct (Py.split c a) as [|h t]; [contradiction|reflexivity].
Qed.

Lemma endswith_inv c s :
  Py.endswith c s = true -> exists s', s = s' +:+ String c "".
Proof.
  induction s as [|x s IH]; simpl; [discriminate|].
  destruct s as [|y s].
  - intros H. apply Ascii.eqb_eq in H as ->. exists "". reflexivity.
  - intros H. destruct (IH H) as [s' ->]. exists (String x s'). reflexivity.
Qed.

Lemma startswith_absent c s :
  Py.contains c s = false -> Py.startswith c s = false.
Proof.
  destruct s as [|x s]; simpl; [reflexivity|].
  intros H. apply orb_false_iff in H as [Hx _]. exact Hx.
Qed.

(** Joining keeps the components of the second path as the last ones. *)
Lemma join_split a b :
  Py.startswith posixpath.sep b = false ->
  exists before, Py.split posixpath.sep (posixpath.join a b)
                 = before ++ Py.split posixpath.sep b.
Proof.
  intros Hb. unfold posixpath.join. rewrite Hb.
  destruct (String.eqb a "") eqn:Ha; simpl.
  - apply String.eqb_eq in Ha as ->. exists []. reflexivity.
  - destruct (Py.endswith posixpath.sep a) eqn:He.
    + destruct (endswith_inv _ _ He) as [a' ->].
      exists (Py.split posixpath.sep a').
      rewrite append_assoc. change (String posixpath.sep "" +:+ b)
        with (String posixpath.sep b).
      apply split_app_sep.
    + exists (Py.split posixpath.sep a).
      change (a +:+ "/" +:+ b) with (a +:+ String posixpath.sep b).
      apply split_app_sep.
Qed.

Lemma join_snoc (sep : string) (l : list string) (x : string) :
  Py.join sep (l ++ [x]) =
  match l with
  | [] => x
  | _ => Py.join sep l +:+ sep +:+ x
  end.
Proof.
  induction l as [|y l IH]; [reflexivity|].
  destruct l as [|z l]; [reflexivity|].
  change ((y :: z :: l) ++ [x]) with (y :: ((z :: l) ++ [x])).
  change (Py.join sep (y :: (z :: l) ++ [x]))
    with (y +:+ sep +:+ Py.join sep ((z :: l) ++ [x])).
  rewrite IH.
  change (Py.join sep (y :: z :: l)) with (y +:+ sep +:+ Py.join sep (z :: l)).
  rewrite !append_assoc. reflexivity.
Qed.


Lemma norm_step_plain (initial_slashes : bool) (done : list string) name :
  name <> "" -> name <> "." -> name <> ".." ->
  posixpath.norm_step initial_slashes done name = name :: done.
Proof.
  intros H0 H1 H2. unfold posixpath.norm_step.
  apply String.eqb_neq in H0, H1, H2. rewrite H0, H1, H2. reflexivity.
Qed.

(** A path whose last component is a plain name keeps it through
    [normpath]. *)
Lemma normpath_last s (before : list string) name :
  Py.split posixpath.sep s = before ++ [name] ->
  name <> "" -> name <> "." -> name <> ".." ->
  posixpath.normpath s = name
  \/ exists z, posixpath.normpath s = z +:+ String posixpath.sep name.
Proof.
  intros Hsplit H0 H1 H2. unfold posixpath.normpath.
  destruct (String.eqb s "") eqn:Hs.
  { apply String.eqb_eq in Hs as ->. simpl in Hsplit.
    destruct before as [|x [|y before]]; simpl in Hsplit; congruence. }
  rewrite Hsplit, fold_left_app. cbn [fold_left].
  rewrite norm_step_plain by assumption.
  cbn [rev]. rewrite join_snoc.
  match goal with
  | |- context [match ?n with 0%nat => _ | _ => _ end] => generalize n
  end.
  intros n.
  assert (Hne : forall r, r = name \/ (exists z, r = z +:+ String posixpath.sep name) ->
                (if String.eqb r "" then "." else r) = r).
  { intros r [->|[z ->]].
    - apply String.eqb_neq in H0. rewrite H0. reflexivity.
    - destruct z; reflexivity. }
  match goal with
  | |- context [rev ?l] => destruct (rev l) as [|y done] eqn:Hrev
  end.
  - destruct n as [|[|n]]; cbv zeta.
    + rewrite Hne by (left; reflexivity). left. reflexivity.
    + rewrite Hne by (right; exists ""; reflexivity). right. exists "". reflexivity.
    + rewrite Hne by (right; exists "/"; reflexivity). right. exists "/". reflexivity.
  - set (j := Py.join "/" (y :: done)).
    change (j +:+ "/" +:+ name) with (j +:+ String posixpath.sep name).
    destruct n as [|[|n]]; cbv zeta.
    + rewrite Hne by (right; exists j; reflexivity). right. exists j. reflexivity.
    + rewrite <- append_assoc.
      rewrite Hne by (right; exists ("/" +:+ j); reflexivity).
      right. exists ("/" +:+ j). reflexivity.
    + rewrite <- append_assoc.
      rewrite Hne by (right; exists ("//" +:+ j); reflexivity).
      right. exists ("//" +:+ j). reflexivity.
Qed.

Lemma rfind_from_absent c s (i : Z) :
  Py.contains c s = false -> Py.rfind_from c s i = -1.
Proof.
  revert i. induction s as [|x s IH]; intros i; simpl; [reflexivity|].
  intros H. apply orb_false_iff in H as [Hx Hs].
  rewrite (IH _ Hs), Hx. reflexivity.
Qed.

Lemma rfind_from_last c z name (i : Z) :
  0 <= i ->
  Py.contains c name = false ->
  Py.rfind_from c (z +:+ String c name) i = i + Z.of_nat (String.length z).
Proof.
  revert i. induction z as [|x z IH]; intros i Hi Hname.
  - rewrite append_nil_l. simpl.
    rewrite (rfind_from_absent _ _ _ Hname), Ascii.eqb_refl. simpl. lia.
  - rewrite append_cons. cbn [Py.rfind_from String.length].
    rewrite (IH (i + 1)) by (lia || assumption).
    destruct (0 <=? i + 1 + Z.of_nat (String.length z)) eqn:E; [lia|].
    apply Z.leb_gt in E. lia.
Qed.

Lemma substring_all s : String.substring 0 (String.length s) s = s.
Proof. induction s as [|x s IH]; simpl; [reflexivity|]. rewrite IH. reflexivity. Qed.

Lemma substring_after z c name :
  String.substring (S (String.length z)) (String.length name)
                   (z +:+ String c name) = name.
Proof.
  induction z as [|x z IH].
  - rewrite append_nil_l. simpl. apply substring_all.
  - rewrite append_cons. simpl. exact IH.
Qed.

(** The basename of a path that ends in a slash-free name is that name. *)
Lemma basename_last p name :
  Py.contains posixpath.sep name = false ->
  p = name \/ (exists z, p = z +:+ String posixpath.sep name) ->
  posixpath.basename p = name.
Proof.
  intros Hname [->|[z ->]]; unfold posixpath.basename, Py.rfind, Py.slice_from.
  - rewrite (rfind_from_absent _ _ _ Hname). simpl.
    rewrite Nat.sub_0_r. apply substring_all.
  - rewrite rfind_from_last by (lia || assumption).
    rewrite append_length. cbn [String.length].
    replace (Z.to_nat (0 + Z.of_nat (String.length z) + 1))
      with (S (String.length z)) by lia.
    replace (String.length z + S (String.length name) - S (String.length z))%nat
      with (String.length name) by lia.
    apply substring_after.
Qed.

(** The file that [abspath(join(directory, name))] designates is named
    [name], whatever the directory and the working directory. *)
Lemma basename_abspath_join (cwd directory name : string) :
  Py.contains posixpath.sep name = false ->
  name <> "" -> name <> "." -> name <> ".." ->
  posixpath.basename (posixpath.abspath cwd (posixpath.join directory name))
  = name.
Proof.
  intros Hname H0 H1 H2.
  apply basename_last; [exact Hname|].
  destruct (join_split directory name (startswith_absent _ _ Hname))
    as [before Hjoin].
  rewrite (split_absent _ _ Hname) in Hjoin.
  unfold posixpath.abspath, posixpath.isabs.
  destruct (Py.startswith posixpath.sep (posixpath.join directory name)) eqn:Habs.
  - exact (normpath_last _ _ _ Hjoin H0 H1 H2).
  - destruct (join_split cwd _ Habs) as [before' Hjoin'].
    rewrite Hjoin, app_assoc in Hjoin'.
    exact (normpath_last _ _ _ Hjoin' H0 H1 H2).
Qed.


Lemma last_occurrence c p :
  Py.contains c p = false
  \/ exists z n, p = z +:+ String c n /\ Py.contains c n = false.
Proof.
  induction p as [|x p IH]; [left; reflexivity|].
  destruct IH as [Hp|(z & n & -> & Hn)].
  - destruct (Ascii.eqb x c) eqn:Hx.
    + apply Ascii.eqb_eq in Hx as ->. right. exists "", p. split; [reflexivity|exact Hp].
    + left. simpl. rewrite Hx, Hp. reflexivity.
  - right. exists (String x z), n. split; [reflexivity|exact Hn].
Qed.

Lemma basename_no_slash p :
  Py.contains posixpath.sep (posixpath.basename p) = false.
Proof.
  destruct (last_occurrence posixpath.sep p) as [Hp|(z & n & -> & Hn)].
  - rewrite (basename_last p p Hp) by (left; reflexivity). exact Hp.
  - rewrite (basename_last _ n Hn) by (right; exists z; reflexivity). exact Hn.
Qed.

Lemma contains_prefix c p (k : nat) :
  Py.contains c p = false -> Py.contains c (String.substring 0 k p) = false.
Proof.
  revert k. induction p as [|x p IH]; intros k H.
  - destruct k; reflexivity.
  - simpl in H. apply orb_false_iff in H as [Hx Hp].
    destruct k as [|k]; simpl; [reflexivity|].
    rewrite Hx, (IH _ Hp). reflexivity.
Qed.

Lemma splitext_no_slash p :
  Py.contains posixpath.sep p = false ->
  Py.contains posixpath.sep (fst (posixpath.splitext p)) = false.
Proof.
  intros Hp. unfold posixpath.splitext.
  match goal with |- context [if ?b then _ else _] => destruct b end; simpl;
    [apply contains_prefix|]; exact Hp.
Qed.

Lemma string_of_uint_no_slash (d : Decimal.uint) :
  Py.contains posixpath.sep (NilEmpty.string_of_uint d) = false.
Proof. induction d; simpl; auto. Qed.

Lemma format_d_no_slash (n : Z) :
  Py.contains posixpath.sep (Py.format_d n) = false.
Proof.
  unfold Py.format_d, NilZero.string_of_int, NilZero.string_of_uint.
  destruct (Z.to_int n) as [d|d]; destruct d; simpl;
    try reflexivity; apply string_of_uint_no_slash.
Qed.

(** A name in which some character other than the dot occurs is none of
    the names [normpath] drops or resolves. *)
Lemma plain_name c name :
  Py.contains c name = true -> c <> "."%char ->
  name <> "" /\ name <> "." /\ name <> "..".
Proof.
  intros H Hc. apply Ascii.eqb_neq in Hc. rewrite Ascii.eqb_sym in Hc.
  repeat split; intros ->; cbn [Py.contains] in H; rewrite ?Hc in H;
    simpl in H; discriminate H.
Qed.

(** The path a thumbnail is written to names a file called like the
    thumbnail. *)
Lemma thumbnail_path_named (cwd destination rawfile_path suffix : string)
    (width height : N) :
  Py.contains posixpath.sep suffix = false ->
  let name :=
    fst (posixpath.splitext (posixpath.basename rawfile_path))
    +:+ "-" +:+ Py.format_d (Z.of_N width)
    +:+ "x" +:+ Py.format_d (Z.of_N height) +:+ suffix in
  posixpath.basename (posixpath.abspath cwd (posixpath.join destination name))
  = name.
Proof.
  intros Hsuffix name.
  assert (Hplain : name <> "" /\ name <> "." /\ name <> "..").
  { apply (plain_name "-"%char); [|discriminate].
    unfold name. rewrite contains_app. apply orb_true_iff. right. reflexivity. }
  destruct Hplain as (H0 & H1 & H2).
  apply basename_abspath_join; try assumption.
  unfold name. rewrite !contains_app.
  rewrite (splitext_no_slash _ (basename_no_slash rawfile_path)).
  rewrite !format_d_no_slash, Hsuffix. reflexivity.
Qed.

(** The path the raw image is written to names a file called like the
    input without its extension, plus [.pgm]. *)
Lemma pgm_path_named (cwd destination rawfile_path : string) :
  let name :=
    fst (posixpath.splitext (posixpath.basename rawfile_path)) +:+ ".pgm" in
  posixpath.basename (posixpath.abspath cwd (posixpath.join destination name))
  = name.
Proof.
  intros name.
  assert (Hplain : name <> "" /\ name <> "." /\ name <> "..").
  { apply (plain_name "p"%char); [|discriminate].
    unfold name. rewrite contains_app. apply orb_true_iff. right. reflexivity. }
  destruct Hplain as (H0 & H1 & H2).
  apply basename_abspath_join; try assumption.
  unfold name. rewrite contains_app.
  rewrite (splitext_no_slash _ (basename_no_slash rawfile_path)). reflexivity.
Qed.

End PathFacts.

(** ** The loop body of [extract_thumbnails], branch by branch *)
Section ThumbnailBody.
Context (env : Env) (rawfile_path destination_path : string)
        (open_in_browser : bool).
Import openraw.

Local Abbreviation body :=
  (thumb.extract_thumbnail env rawfile_path destination_path open_in_browser
     (fst (posixpath.splitext (posixpath.basename rawfile_path)))).

Lemma write_rgb8pixmap_to_stream_bytes (t : Bitmap) (w : World) (b : BitmapData) :
  heap w !! _bitmap t = Some b ->
  thumb.write_rgb8pixmap_to_stream t "" w =
  (Returns (ppm_bytes (bd_x b) (bd_y b) (bd_data b)), w).
Proof.
  intros Hb. unfold thumb.write_rgb8pixmap_to_stream, bind,
    get_width, get_height, get_data, ret.
  rewrite !(native_get_lookup _ _ _ _ Hb).
  unfold ppm_bytes. rewrite append_nil_l, !append_assoc. reflexivity.
Qed.

(** What the tail of the body does once extension and data are chosen. *)
Lemma body_writes (t : Thumbnail) (w : World) (b : BitmapData)
    (extension : option string) (data : string) :
  heap w !! _bitmap t = Some b ->
  let path := destination_file env destination_path
                (thumbnail_file rawfile_path (bd_x b) (bd_y b)
                                (Py.format_s extension)) in
  (width <- get_width t ;;
   height <- get_height t ;;
   let thumbnail_name :=
     fst (posixpath.splitext (posixpath.basename rawfile_path))
     +:+ "-" +:+ Py.format_d (Z.of_N width)
     +:+ "x" +:+ Py.format_d (Z.of_N height) +:+ Py.format_s extension in
   let thumbnail_path :=
     posixpath.abspath (getcwd env)
       (posixpath.join destination_path thumbnail_name) in
   f <- file_open_wb thumbnail_path ;;
   file_write f data ;;;
   file_close f ;;;
   if open_in_browser then webbrowser (open_new_tab thumbnail_path)
   else ret tt) w =
  (Returns tt, wrote path data (launch open_in_browser (open_new_tab path)) w).
Proof.
  intros Hb path.
  unfold bind at 1. unfold get_width. rewrite (native_get_lookup _ _ _ _ Hb).
  unfold bind at 1. unfold get_height. rewrite (native_get_lookup _ _ _ _ Hb).
  cbv zeta. fold (thumbnail_file rawfile_path (bd_x b) (bd_y b) (Py.format_s extension)).
  fold (destination_file env destination_path
          (thumbnail_file rawfile_path (bd_x b) (bd_y b) (Py.format_s extension))).
  fold path.
  unfold bind, file_open_wb, file_write, file_close, ret, wrote, launch. simpl.
  rewrite lookup_insert_eq, insert_insert_eq. simpl.
  destruct open_in_browser; simpl; [reflexivity|].
  rewrite app_nil_r. reflexivity.
Qed.

Lemma body_pixmap (t : Thumbnail) (w : World) (b : BitmapData) :
  heap w !! _bitmap t = Some b ->
  bd_dataType b = OR_DATA_TYPE_PIXMAP_8RGB ->
  let path := destination_file env destination_path
                (thumbnail_file rawfile_path (bd_x b) (bd_y b) ".ppm") in
  body t w =
  (Returns tt,
   wrote path (ppm_bytes (bd_x b) (bd_y b) (bd_data b))
         (launch open_in_browser (open_new_tab path)) w).
Proof.
  intros Hb Hty path. unfold thumb.extract_thumbnail.
  unfold bind at 1. unfold get_data_type at 1.
  rewrite (native_get_lookup _ _ _ _ Hb), Hty.
  rewrite decide_True by reflexivity.
  unfold bind at 1. unfold bind at 1.
  rewrite (write_rgb8pixmap_to_stream_bytes _ _ _ Hb). unfold ret at 1.
  apply (body_writes t w b (Some ".ppm") _ Hb).
Qed.

Lemma body_mime (t : Thumbnail) (w : World) (b : BitmapData) (mime_type : string) :
  heap w !! _bitmap t = Some b ->
  bd_dataType b <> OR_DATA_TYPE_PIXMAP_8RGB ->
  DATATYPE_TO_MIMETYPE !! bd_dataType b = Some mime_type ->
  let path := destination_file env destination_path
                (thumbnail_file rawfile_path (bd_x b) (bd_y b)
                   (Py.format_s (guess_extension env mime_type))) in
  body t w =
  (Returns tt,
   wrote path (bd_data b) (launch open_in_browser (open_new_tab path)) w).
Proof.
  intros Hb Hty Hmime path. unfold thumb.extract_thumbnail.
  unfold bind at 1. unfold get_data_type at 1.
  rewrite (native_get_lookup _ _ _ _ Hb).
  rewrite decide_False by exact Hty.
  unfold bind at 1. unfold bind at 1. unfold get_data_type at 1.
  rewrite (native_get_lookup _ _ _ _ Hb), Hmime.
  unfold bind at 1. unfold get_data at 1.
  rewrite (native_get_lookup _ _ _ _ Hb). unfold ret at 1.
  apply (body_writes t w b (guess_extension env mime_type) _ Hb).
Qed.

Lemma body_unsupported (t : Thumbnail) (w : World) (b : BitmapData) :
  heap w !! _bitmap t = Some b ->
  bd_dataType b <> OR_DATA_TYPE_PIXMAP_8RGB ->
  DATATYPE_TO_MIMETYPE !! bd_dataType b = None ->
  body t w =
  (Returns tt,
   complained (thumb.cannot_extract (enum_name (engine env) (bd_dataType b))
                                    rawfile_path (bd_x b) (bd_y b)) w).
Proof.
  intros Hb Hty Hmime. unfold thumb.extract_thumbnail.
  unfold bind at 1. unfold get_data_type at 1.
  rewrite (native_get_lookup _ _ _ _ Hb).
  rewrite decide_False by exact Hty.
  unfold bind at 1. unfold bind at 1. unfold get_data_type at 1.
  rewrite (native_get_lookup _ _ _ _ Hb), Hmime.
  unfold bind, get_data_type, get_width, get_height.
  rewrite !(native_get_lookup _ _ _ _ Hb).
  reflexivity.
Qed.

(** Whatever its data type, a thumbnail is dealt with: the body returns
    and leaves the native bitmaps alone. *)
Lemma body_returns (t : Thumbnail) (w : World) (b : BitmapData) :
  heap w !! _bitmap t = Some b ->
  exists w', body t w = (Returns tt, w') /\ heap w' = heap w.
Proof.
  intros Hb.
  destruct (decide (bd_dataType b = OR_DATA_TYPE_PIXMAP_8RGB)) as [Hty|Hty].
  - eexists. split; [exact (body_pixmap t w b Hb Hty)|reflexivity].
  - destruct (DATATYPE_TO_MIMETYPE !! bd_dataType b) as [mime_type|] eqn:Hmime.
    + eexists. split; [exact (body_mime t w b mime_type Hb Hty Hmime)|reflexivity].
    + eexists. split; [exact (body_unsupported t w b Hb Hty Hmime)|reflexivity].
Qed.

Lemma loop_returns (thumbnails : list Thumbnail) (w : World) :
  Forall (fun t => is_Some (heap w !! _bitmap t)) thumbnails ->
  exists w', for_each thumbnails body w = (Returns tt, w') /\ heap w' = heap w.
Proof.
  revert w. induction thumbnails as [|t thumbnails IH]; intros w Hall.
  - exists w. split; reflexivity.
  - apply Forall_cons in Hall as [[b Hb] Hall].
    destruct (body_returns t w b Hb) as (w1 & Hbody & Hheap).
    destruct (IH w1) as (w2 & Hrest & Hheap2).
    { rewrite Hheap. exact Hall. }
    exists w2. split; [|congruence].
    cbn [for_each]. rewrite (then_returns _ _ _ _ tt Hbody). exact Hrest.
Qed.



(** The run of the driver up to the iteration for one thumbnail. *)
Lemma extract_thumbnails_reaches (w w0 w1 w2 : World) (raw_file : RawFile)
    (before after : list Thumbnail) (t : Thumbnail) :
  from_path env rawfile_path OR_RAWFILE_TYPE_UNKNOWN w = (Returns raw_file, w0) ->
  get_thumbnails env raw_file w0 = (Returns (before ++ t :: after), w1) ->
  for_each before body w1 = (Returns tt, w2) ->
  thumb.extract_thumbnails env rawfile_path destination_path open_in_browser w =
  (body t ;;; for_each after body) w2.
Proof.
  intros Hopen Hthumbs Hbefore. unfold thumb.extract_thumbnails.
  rewrite (bind_returns _ _ _ _ _ Hopen). cbv zeta.
  rewrite (bind_returns _ _ _ _ _ Hthumbs).
  rewrite for_each_app.
  rewrite (bind_returns _ _ _ _ _ Hbefore). reflexivity.
Qed.

End ThumbnailBody.

(** ** The extract-thumbnails driver *)
Section ExtractThumbnails.
Context (env : Env) (rawfile_path destination_path : string)
        (open_in_browser : bool).
Import openraw.

Local Abbreviation body :=
  (thumb.extract_thumbnail env rawfile_path destination_path open_in_browser
     (fst (posixpath.splitext (posixpath.basename rawfile_path)))).

Lemma pixmap_has_no_mime_type :
  DATATYPE_TO_MIMETYPE !! OR_DATA_TYPE_PIXMAP_8RGB = None.
Proof. reflexivity. Qed.

(** C2. When the run of [extract_thumbnails] comes to a thumbnail whose data
    type is the packed 8-bit RGB pixmap, of width [bd_x b], height [bd_y b]
    and byte buffer [bd_data b], it writes a file in the destination
    directory whose name is basename-WIDTHxHEIGHT.ppm (the last component of
    the path written to is exactly that); the content is exactly P6,
    newline, width, space, height, newline, 255, newline, and then the byte
    buffer as it is. Nothing goes to the error stream, and the run carries
    on with the thumbnails that follow. *)
Theorem extract_thumbnails_writes_ppm (w w0 w1 w2 : World) (raw_file : RawFile)
    (before after : list Thumbnail) (t : Thumbnail) (b : BitmapData) :
  from_path env rawfile_path OR_RAWFILE_TYPE_UNKNOWN w = (Returns raw_file, w0) ->
  get_thumbnails env raw_file w0 = (Returns (before ++ t :: after), w1) ->
  for_each before body w1 = (Returns tt, w2) ->
  heap w2 !! _bitmap t = Some b ->
  bd_dataType b = OR_DATA_TYPE_PIXMAP_8RGB ->
  let name :=
    fst (posixpath.splitext (posixpath.basename rawfile_path))
    +:+ "-" +:+ Py.format_d (Z.of_N (bd_x b))
    +:+ "x" +:+ Py.format_d (Z.of_N (bd_y b)) +:+ ".ppm" in
  let path :=
    posixpath.abspath (getcwd env) (posixpath.join destination_path name) in
  let content :=
    "P6" +:+ Py.nl
    +:+ Py.format_d (Z.of_N (bd_x b)) +:+ " "
    +:+ Py.format_d (Z.of_N (bd_y b)) +:+ Py.nl
    +:+ "255" +:+ Py.nl
    +:+ bd_data b in
  let w3 := wrote path content (launch open_in_browser (open_new_tab path)) w2 in
  thumb.extract_thumbnails env rawfile_path destination_path open_in_browser w
  = for_each after body w3
  /\ files w3 !! path = Some content
  /\ stderr w3 = stderr w2
  /\ posixpath.basename path = name.
Proof.
  intros Hopen Hthumbs Hbefore Hb Hty name path content w3.
  split; [|split; [|split]]; [| | |apply thumbnail_path_named; reflexivity].
  - rewrite (extract_thumbnails_reaches _ _ _ _ _ _ _ _ _ _ _ _
               Hopen Hthumbs Hbefore).
    apply (then_returns _ _ _ _ tt).
    exact (body_pixmap env rawfile_path destination_path open_in_browser
                       t w2 b Hb Hty).
  - apply lookup_insert_eq.
  - reflexivity.
Qed.


(** C10. When the run of [extract_thumbnails] comes to a thumbnail whose data
    type has a MIME type in [DATATYPE_TO_MIMETYPE] for which the system's
    lookup yields no extension, nothing is printed and the thumbnail is not
    skipped: the extension is [None], and the byte buffer is written to a
    file whose name (the last component of the path written to) is
    basename-WIDTHxHEIGHT followed by the four characters None. *)
Theorem extract_thumbnails_extension_None (w w0 w1 w2 : World)
    (raw_file : RawFile) (before after : list Thumbnail) (t : Thumbnail)
    (b : BitmapData) (mime_type : string) :
  from_path env rawfile_path OR_RAWFILE_TYPE_UNKNOWN w = (Returns raw_file, w0) ->
  get_thumbnails env raw_file w0 = (Returns (before ++ t :: after), w1) ->
  for_each before body w1 = (Returns tt, w2) ->
  heap w2 !! _bitmap t = Some b ->
  DATATYPE_TO_MIMETYPE !! bd_dataType b = Some mime_type ->
  guess_extension env mime_type = None ->
  let name :=
    fst (posixpath.splitext (posixpath.basename rawfile_path))
    +:+ "-" +:+ Py.format_d (Z.of_N (bd_x b))
    +:+ "x" +:+ Py.format_d (Z.of_N (bd_y b)) +:+ "None" in
  let path :=
    posixpath.abspath (getcwd env) (posixpath.join destination_path name) in
  let w3 := wrote path (bd_data b) (launch open_in_browser (open_new_tab path)) w2 in
  thumb.extract_thumbnails env rawfile_path destination_path open_in_browser w
  = for_each after body w3
  /\ files w3 !! path = Some (bd_data b)
  /\ stderr w3 = stderr w2
  /\ posixpath.basename path = name.
Proof.
  intros Hopen Hthumbs Hbefore Hb Hmime Hext name path w3.
  assert (Hnot : bd_dataType b <> OR_DATA_TYPE_PIXMAP_8RGB).
  { intros E. rewrite E, pixmap_has_no_mime_type in Hmime. discriminate. }
  split; [|split; [|split]]; [| | |apply thumbnail_path_named; reflexivity].
  - rewrite (extract_thumbnails_reaches _ _ _ _ _ _ _ _ _ _ _ _
               Hopen Hthumbs Hbefore).
    apply (then_returns _ _ _ _ tt).
    pose proof (body_mime env rawfile_path destination_path open_in_browser
                          t w2 b mime_type Hb Hnot Hmime) as Hbody.
    cbv zeta in Hbody. rewrite Hext in Hbody. exact Hbody.
  - apply lookup_insert_eq.
  - reflexivity.
Qed.


End ExtractThumbnails.

Lemma extract_thumbnails_writes_ppm_witness :
  exists w3 : World,
    thumb.extract_thumbnails synthetic_env "images/duck.cr2" "out" true empty_world
    = for_each [] synthetic_body w3
    /\ files w3 !! "/home/user/out/duck-160x120.ppm"
       = Some ("P6" +:+ Py.nl +:+ "160 120" +:+ Py.nl +:+ "255" +:+ Py.nl
               +:+ "RGBrgb").
Proof.
  eexists.
  destruct (extract_thumbnails_writes_ppm synthetic_env "images/duck.cr2" "out"
              true empty_world synthetic_opened synthetic_enumerated
              (synthetic_before 4%nat) synthetic_raw_file
              (take 4%nat synthetic_thumbnails) [] (openraw.mkBitmap 4%nat)
              (apply_ops (snd (synthetic_getThumbnail 160%N)) blank))
    as (Hrun & Hfile & _).
  1-5: vm_compute; reflexivity.
  split; [exact Hrun | exact Hfile].
Defined.



Lemma extract_thumbnails_extension_None_witness :
  exists w3 : World,
    thumb.extract_thumbnails synthetic_env "images/duck.cr2" "out" true empty_world
    = for_each (drop 3%nat synthetic_thumbnails) synthetic_body w3
    /\ files w3 !! "/home/user/out/duck-42x28None" = Some "II*"
    /\ stderr w3 = stderr (synthetic_before 2%nat).
Proof.
  eexists.
  destruct (extract_thumbnails_extension_None synthetic_env "images/duck.cr2"
              "out" true empty_world synthetic_opened synthetic_enumerated
              (synthetic_before 2%nat) synthetic_raw_file
              (take 2%nat synthetic_thumbnails) (drop 3%nat synthetic_thumbnails)
              (openraw.mkBitmap 2%nat)
              (apply_ops (snd (synthetic_getThumbnail 42%N)) blank) "image/tiff")
    as (Hrun & Hfile & Herr & _).
  1-6: vm_compute; reflexivity.
  split; [exact Hrun | split; [exact Hfile | exact Herr]].
Defined.


(** ** The facade: opening and extracting *)
Section Facade.
Context (env : Env).
Import openraw.

(** C5. [from_path] and [from_string] raise [Error] (with no error code)
    exactly when the engine hands back no session; otherwise they return a
    [RawFile] wrapping the session the engine returned. A [RawFile] they
    return never has [None] for its [_rawfile]. *)
Theorem factories_raise_exactly_without_handle (path data : string)
    (raw_type_hint : Type_) (w : World) :
  let by_path := newRawFile (engine env) path raw_type_hint in
  let by_memory := newRawFileFromMemory (engine env) data raw_type_hint in
  let opened := fst (from_path env path raw_type_hint w) in
  let parsed := fst (from_string env data raw_type_hint w) in
  ((exists e, opened = Raises e) <-> by_path = None)
  /\ (by_path = None -> opened = Raises (Error None))
  /\ (forall h, by_path = Some h -> opened = Returns (mkRawFile (Some h)))
  /\ (forall raw_file, opened = Returns raw_file ->
        exists h, by_path = Some h /\ _rawfile raw_file = Some h)
  /\ ((exists e, parsed = Raises e) <-> by_memory = None)
  /\ (by_memory = None -> parsed = Raises (Error None))
  /\ (forall h, by_memory = Some h -> parsed = Returns (mkRawFile (Some h)))
  /\ (forall raw_file, parsed = Returns raw_file ->
        exists h, by_memory = Some h /\ _rawfile raw_file = Some h).
Proof.
  cbv zeta. unfold from_path, from_string, bind, log_call, raise, ret, RawFile__init.
  simpl.
  destruct (newRawFile (engine env) path raw_type_hint) as [h1|];
    destruct (newRawFileFromMemory (engine env) data raw_type_hint) as [h2|];
    simpl; repeat split;
    try (intros [e He]; discriminate);
    try discriminate;
    try (intros _; eexists; reflexivity);
    try (intros h He; congruence);
    try (intros raw_file He; injection He as <-; eexists; split; reflexivity);
    try reflexivity;
    try congruence.
Qed.

(** C4. For a [RawFile] over a session, [get_thumbnail] (resp.
    [get_raw_data]) raises if and only if the code returned by the engine's
    [getThumbnail] (resp. [getRawData]) differs from [OR_ERROR_NONE]; what it
    raises is [Error] carrying exactly that code; when the code is
    [OR_ERROR_NONE] it raises nothing and returns a wrapper of the native
    bitmap the engine filled. *)
Theorem extraction_raises_exactly_on_error_code (self : RawFile) (h : handle)
    (requested_width : N) (options : or_options) (w : World) :
  _rawfile self = Some h ->
  let thumb_code := fst (getThumbnail (engine env) h requested_width) in
  let thumb_filled := snd (getThumbnail (engine env) h requested_width) in
  let raw_code := fst (getRawData (engine env) h options) in
  let raw_filled := snd (getRawData (engine env) h options) in
  let thumb_run := get_thumbnail env self requested_width w in
  let raw_run := get_raw_data env self options w in
  ((exists e, fst thumb_run = Raises e) <-> thumb_code <> OR_ERROR_NONE)
  /\ (forall e, fst thumb_run = Raises e -> e = Error (Some thumb_code))
  /\ (thumb_code = OR_ERROR_NONE ->
      exists t : Thumbnail,
        fst thumb_run = Returns t
        /\ heap (snd thumb_run) !! _bitmap t = Some (apply_ops thumb_filled blank))
  /\ ((exists e, fst raw_run = Raises e) <-> raw_code <> OR_ERROR_NONE)
  /\ (forall e, fst raw_run = Raises e -> e = Error (Some raw_code))
  /\ (raw_code = OR_ERROR_NONE ->
      exists r : RawData,
        fst raw_run = Returns r
        /\ _rawdata r = _bitmap r
        /\ heap (snd raw_run) !! _bitmap r = Some (apply_ops raw_filled blank)).
Proof.
  intros Hself. cbv zeta.
  rewrite (get_thumbnail_run env _ _ _ _ Hself), (get_raw_data_run env _ _ _ _ Hself).
  simpl.
  destruct (decide (fst (getThumbnail (engine env) h requested_width) <> OR_ERROR_NONE))
    as [Ht|Ht];
  destruct (decide (fst (getRawData (engine env) h options) <> OR_ERROR_NONE))
    as [Hr|Hr];
  repeat split;
  try (intros _; assumption);
  try (intros _; eexists; reflexivity);
  try (intros [e He]; discriminate);
  try (intros e He; congruence);
  try (intros He; contradiction);
  try (intros _; eexists; repeat split; apply lookup_fresh).
Qed.

(** C9. For a [RawFile] over a session and a requested width, two calls of
    [get_thumbnail] in a row end the same way; when they return, they return
    two different native bitmaps whose byte buffers are equal, and the second
    call leaves the buffer of the first as it was. The buffer is the same
    from whichever world the call is made. *)
Theorem get_thumbnail_deterministic (self : RawFile) (h : handle)
    (requested_width : N) (w other : World) :
  _rawfile self = Some h ->
  let first := get_thumbnail env self requested_width w in
  let second := get_thumbnail env self requested_width (snd first) in
  let elsewhere := get_thumbnail env self requested_width other in
  (forall e, fst first = Raises e <-> fst second = Raises e)
  /\ (forall t1 t2 : Thumbnail,
        fst first = Returns t1 -> fst second = Returns t2 ->
        _bitmap t1 <> _bitmap t2
        /\ (exists data,
              fst (get_data t1 (snd first)) = Returns data
              /\ fst (get_data t1 (snd second)) = Returns data
              /\ fst (get_data t2 (snd second)) = Returns data))
  /\ (forall t1 t3 : Thumbnail,
        fst first = Returns t1 -> fst elsewhere = Returns t3 ->
        fst (get_data t1 (snd first)) = fst (get_data t3 (snd elsewhere))).
Proof.
  intros Hself. cbv zeta.
  rewrite !(get_thumbnail_run env _ _ _ _ Hself). simpl.
  destruct (decide (fst (getThumbnail (engine env) h requested_width) <> OR_ERROR_NONE))
    as [Hcode|Hcode].
  - split; [intros e; tauto|]. split; intros; discriminate.
  - split; [intros e; split; discriminate|]. split.
    + intros t1 t2 [= <-] [= <-]. simpl. rewrite length_app. simpl.
      split; [lia|].
      exists (bd_data (apply_ops (snd (getThumbnail (engine env) h requested_width)) blank)).
      unfold get_data, native_get. simpl.
      rewrite lookup_fresh.
      rewrite lookup_app_l by (rewrite length_app; simpl; lia).
      rewrite lookup_fresh.
      replace (length (heap w) + 1)%nat
        with (length (heap w ++ [apply_ops (snd (getThumbnail (engine env) h requested_width)) blank]))
        by (rewrite length_app; reflexivity).
      rewrite lookup_fresh. repeat split.
    + intros t1 t3 [= <-] [= <-]. unfold get_data, native_get. simpl.
      rewrite !lookup_fresh. reflexivity.
Qed.

End Facade.

(** ** The extract-raw-data driver *)

(** A number printed by [%d] reads back as itself. *)
Lemma parse_format_d (n : Z) : Py.parse_d (Py.format_d n) = Some n.
Proof.
  unfold Py.parse_d, Py.format_d.
  rewrite NilZero.isi.
  - simpl. rewrite DecimalZ.of_to. reflexivity.
  - destruct n as [|p|p]; simpl; try discriminate.
    intros [= E]. exact (DecimalPos.Unsigned.to_uint_nonnil p E).
  - destruct n as [|p|p]; simpl; try discriminate.
    intros [= E]. exact (DecimalPos.Unsigned.to_uint_nonnil p E).
Qed.

Lemma format_d_inj (m n : Z) : Py.format_d m = Py.format_d n -> m = n.
Proof.
  intros E. apply (f_equal Py.parse_d) in E.
  rewrite !parse_format_d in E. congruence.
Qed.

Section ExtractRawImage.
Context (env : Env) (rawfile_path destination_path : string)
        (open_in_browser : bool).
Import openraw.

(** C1. When the raw file opens and its raw data is extracted into a bitmap
    of width [bd_x b], height [bd_y b], [bd_bpc b] bits per channel and byte
    buffer [bd_data b], [extract_raw_image] writes, to the file of the
    destination directory named after the input's basename without its
    extension plus .pgm (the last component of the path written to is
    exactly that), exactly the bytes P5, newline, width, space, height,
    newline, 2^bpc - 1, newline, and then the byte buffer as it is. The
    declared maximal value reads back as 2^bpc - 1, and it is what [%d]
    prints for [bd_max b] only if the two are the same number. *)
Theorem extract_raw_image_writes_pgm (w w0 w1 : World) (raw_file : RawFile)
    (raw_data : RawData) (b : BitmapData) :
  from_path env rawfile_path OR_RAWFILE_TYPE_UNKNOWN w = (Returns raw_file, w0) ->
  get_raw_data env raw_file OR_OPTIONS_NONE w0 = (Returns raw_data, w1) ->
  heap w1 !! _bitmap raw_data = Some b ->
  let name :=
    fst (posixpath.splitext (posixpath.basename rawfile_path)) +:+ ".pgm" in
  let path :=
    posixpath.abspath (getcwd env) (posixpath.join destination_path name) in
  let maxval := Py.format_d (2 ^ Z.of_N (bd_bpc b) - 1) in
  let content :=
    "P5" +:+ Py.nl
    +:+ Py.format_d (Z.of_N (bd_x b)) +:+ " "
    +:+ Py.format_d (Z.of_N (bd_y b)) +:+ Py.nl
    +:+ maxval +:+ Py.nl
    +:+ bd_data b in
  let w2 := wrote path content (launch open_in_browser (open_new path)) w1 in
  cfa.extract_raw_image env rawfile_path destination_path open_in_browser w
  = (Returns tt, w2)
  /\ files w2 !! path = Some content
  /\ Py.parse_d maxval = Some (2 ^ Z.of_N (bd_bpc b) - 1)
  /\ (maxval = Py.format_d (Z.of_N (bd_max b)) ->
      Z.of_N (bd_max b) = 2 ^ Z.of_N (bd_bpc b) - 1)
  /\ posixpath.basename path = name.
Proof.
  intros Hopen Hraw Hb name path maxval content w2.
  split; [|split; [|split; [|split]]]; [| | | |apply pgm_path_named].
  - unfold cfa.extract_raw_image.
    rewrite (bind_returns _ _ _ _ _ Hopen), (bind_returns _ _ _ _ _ Hraw).
    cbv zeta. fold name. fold path.
    unfold bind, file_open_wb, file_write, file_close, ret,
      get_width, get_height, get_bits_per_channel, get_data, native_get.
    simpl.
    repeat (first [rewrite Hb | rewrite lookup_insert_eq
                  | rewrite insert_insert_eq]; simpl).
    unfold w2, wrote, launch, content, maxval, Py.pow2, webbrowser.
    rewrite !append_assoc.
    destruct open_in_browser; simpl; [reflexivity|].
    rewrite app_nil_r. reflexivity.
  - apply lookup_insert_eq.
  - apply parse_format_d.
  - intros E. symmetry. exact (format_d_inj _ _ E).
Qed.

End ExtractRawImage.

Lemma extract_raw_image_writes_pgm_witness :
  cfa.extract_raw_image synthetic_env "images/duck.cr2" "." false empty_world
  = (Returns tt,
     wrote "/home/user/duck.pgm"
           ("P5" +:+ Py.nl +:+ "3944 2622" +:+ Py.nl +:+ "16383" +:+ Py.nl
            +:+ "sensor")
           [] synthetic_raw_extracted)
  /\ bd_max (apply_ops (snd (getRawData (engine synthetic_env) 1%N OR_OPTIONS_NONE))
                       blank) = 15000%N.
Proof.
  destruct (extract_raw_image_writes_pgm synthetic_env "images/duck.cr2" "."
              false empty_world synthetic_opened synthetic_raw_extracted
              synthetic_raw_file (openraw.RawData__init 0%nat)
              (apply_ops (snd (getRawData (engine synthetic_env) 1%N
                                          OR_OPTIONS_NONE)) blank))
    as (Hrun & _).
  1-3: vm_compute; reflexivity.
  split; [exact Hrun | reflexivity].
Defined.

(** ** Enumerating the thumbnails *)
Section Enumeration.
Context (env : Env) (self : openraw.RawFile) (h : handle).
Hypothesis Hself : openraw._rawfile self = Some h.
Import openraw.

Local Abbreviation produced :=
  (fun width : N => apply_ops (snd (getThumbnail (engine env) h width)) blank).
Local Abbreviation succeeds :=
  (fun width : N => fst (getThumbnail (engine env) h width) = OR_ERROR_NONE).
Local Abbreviation asked :=
  (fun (widths : list N) (w : World) =>
     zip_with (call_getThumbnail h) widths
              (seq (length (heap w)) (length widths))).

Lemma selector_widths_asked (widths : list N) (start : nat) :
  selector_widths
    (zip_with (call_getThumbnail h) widths (seq start (length widths))) = widths.
Proof.
  revert start. induction widths as [|width widths IH]; intros start;
    [reflexivity|].
  simpl. unfold selector_widths in *. simpl. f_equal. apply IH.
Qed.

(** When every extraction succeeds the comprehension runs to its end. *)
Lemma list_comprehension_all (widths : list N) (w : World) :
  Forall succeeds widths ->
  list_comprehension (get_thumbnail env self) widths w =
  (Returns (mkBitmap <$> seq (length (heap w)) (length widths)),
   mkWorld (heap w ++ (produced <$> widths)) (files w) (stderr w) (browser w)
           (calls w ++ asked widths w)).
Proof.
  revert w. induction widths as [|width widths IH]; intros w Hall.
  - simpl. unfold ret. rewrite !app_nil_r. destruct w; reflexivity.
  - apply Forall_cons in Hall as [Hwidth Hall].
    cbn [list_comprehension].
    unfold bind at 1. rewrite (get_thumbnail_run env _ _ _ _ Hself).
    rewrite decide_False by (rewrite Hwidth; intros X; apply X; reflexivity).
    unfold bind at 1. rewrite (IH _ Hall). unfold ret. cbn [heap files stderr browser calls].
    rewrite length_app. cbn [length]. rewrite Nat.add_1_r.
    rewrite <- !app_assoc. reflexivity.
Qed.

(** The first extraction that fails ends the comprehension. *)
Lemma list_comprehension_stops (good rest : list N) (bad : N) (w : World) :
  Forall succeeds good ->
  ~ succeeds bad ->
  list_comprehension (get_thumbnail env self) (good ++ bad :: rest) w =
  (Raises (Error (Some (fst (getThumbnail (engine env) h bad)))),
   mkWorld (heap w ++ (produced <$> (good ++ [bad]))) (files w) (stderr w)
           (browser w) (calls w ++ asked (good ++ [bad]) w)).
Proof.
  revert w. induction good as [|width good IH]; intros w Hall Hbad.
  - cbn [app list_comprehension].
    unfold bind at 1. rewrite (get_thumbnail_run env _ _ _ _ Hself).
    rewrite decide_True by exact Hbad. reflexivity.
  - apply Forall_cons in Hall as [Hwidth Hall].
    cbn [app list_comprehension].
    unfold bind at 1. rewrite (get_thumbnail_run env _ _ _ _ Hself).
    rewrite decide_False by (rewrite Hwidth; intros X; apply X; reflexivity).
    unfold bind at 1. rewrite (IH _ Hall Hbad). cbn [heap files stderr browser calls].
    rewrite length_app. cbn [length]. rewrite Nat.add_1_r.
    rewrite <- !app_assoc. reflexivity.
Qed.

Lemma get_thumbnails_unfold (w : World) :
  get_thumbnails env self w =
  list_comprehension (get_thumbnail env self)
    (listThumbnailSizes (engine env) h)
    (mkWorld (heap w) (files w) (stderr w) (browser w)
             (calls w ++ [call_listThumbnailSizes h])).
Proof.
  unfold get_thumbnails, get_thumbnail_widths, with_rawfile. rewrite Hself.
  reflexivity.
Qed.

End Enumeration.

(** When the file opens and the engine extracts every thumbnail it lists,
    the thumbnail driver runs to its end. *)
Lemma extract_thumbnails_completes (env : Env)
    (rawfile_path destination_path : string) (open_in_browser : bool)
    (h : handle) (w : World) :
  newRawFile (engine env) rawfile_path OR_RAWFILE_TYPE_UNKNOWN = Some h ->
  Forall (fun width => fst (getThumbnail (engine env) h width) = OR_ERROR_NONE)
         (listThumbnailSizes (engine env) h) ->
  exists w',
    thumb.extract_thumbnails env rawfile_path destination_path open_in_browser w
    = (Returns tt, w').
Proof.
  intros Hopen Hall. unfold thumb.extract_thumbnails.
  unfold openraw.from_path at 1. unfold bind at 1. unfold bind at 1.
  unfold log_call. rewrite Hopen. unfold ret at 1. cbv zeta.
  unfold bind at 1.
  unfold openraw.RawFile__init.
  rewrite (get_thumbnails_unfold env (openraw.mkRawFile (Some h)) h eq_refl).
  rewrite (list_comprehension_all env (openraw.mkRawFile (Some h)) h eq_refl
             _ _ Hall).
  cbn [heap files stderr browser calls].
  match goal with
  | |- exists w', for_each ?ts ?body ?w1 = _ =>
      destruct (loop_returns env rawfile_path destination_path open_in_browser
                             ts w1) as (w' & Hloop & _)
  end.
  - apply Forall_fmap, Forall_seq. intros i Hi. cbn [heap openraw._bitmap compose].
    apply lookup_lt_is_Some. rewrite length_app, length_fmap. lia.
  - exists w'. exact Hloop.
Qed.

(** C7, as amended. For a [RawFile] over a session: when the engine extracts
    a thumbnail for every width it lists, [get_thumbnails] calls the selector
    once per element of the list of widths, in the order of the list and
    without merging equal widths; the list returned is as long as the list
    of widths, its elements are distinct native bitmaps, and the one at
    position i holds what the engine produced for the width at position i.
    When the extraction fails for some width, [get_thumbnails] raises the
    [Error] of the first such width, returns no list, and the selector has
    been called for the widths up to and including that one only. *)
Theorem get_thumbnails_enumerates (env : Env) (self : openraw.RawFile)
    (h : handle) (w : World) :
  openraw._rawfile self = Some h ->
  let widths := listThumbnailSizes (engine env) h in
  let run := openraw.get_thumbnails env self w in
  (Forall (fun width => fst (getThumbnail (engine env) h width) = OR_ERROR_NONE)
          widths ->
   enumerates_every_width env self h w
   /\ fst run
      = Returns (openraw.mkBitmap <$> seq (length (heap w)) (length widths)))
  /\ (forall (good rest : list N) (bad : N),
        widths = good ++ bad :: rest ->
        Forall (fun width => fst (getThumbnail (engine env) h width) = OR_ERROR_NONE)
               good ->
        fst (getThumbnail (engine env) h bad) <> OR_ERROR_NONE ->
        fst run = Raises (Error (Some (fst (getThumbnail (engine env) h bad))))
        /\ selector_widths (calls_during (openraw.get_thumbnails env self) w)
           = good ++ [bad]).
Proof.
  intros Hself widths run. split.
  - intros Hall.
    assert (Hrun : run =
      (Returns (openraw.mkBitmap <$> seq (length (heap w)) (length widths)),
       mkWorld (heap w ++
                  ((fun width => apply_ops (snd (getThumbnail (engine env) h width)) blank)
                     <$> widths))
               (files w) (stderr w) (browser w)
               ((calls w ++ [call_listThumbnailSizes h])
                  ++ zip_with (call_getThumbnail h) widths
                       (seq (length (heap w)) (length widths))))).
    { unfold run. rewrite (get_thumbnails_unfold env self h Hself).
      rewrite (list_comprehension_all env self h Hself _ _ Hall). reflexivity. }
    split; [|rewrite Hrun; reflexivity].
    unfold enumerates_every_width. fold widths. fold run.
    exists (openraw.mkBitmap <$> seq (length (heap w)) (length widths)).
    split; [rewrite Hrun; reflexivity|].
    split; [rewrite length_fmap, length_seq; reflexivity|].
    split.
    + unfold calls_during. fold run. rewrite Hrun. cbn [snd calls].
      rewrite <- app_assoc, drop_app_length.
      apply (selector_widths_asked h widths).
    + intros i width Hi.
      assert (Hlt : (i < length widths)%nat) by (eapply lookup_lt_Some; exact Hi).
      exists (openraw.mkBitmap (length (heap w) + i)%nat).
      split.
      * rewrite list_lookup_fmap, lookup_seq_lt by exact Hlt. reflexivity.
      * rewrite Hrun. cbn [snd heap openraw._bitmap].
        rewrite lookup_app_r by lia.
        replace (length (heap w) + i - length (heap w))%nat with i by lia.
        rewrite list_lookup_fmap, Hi. reflexivity.
  - intros good rest bad Hsplit Hgood Hbad.
    assert (Hrun : run =
      (Raises (Error (Some (fst (getThumbnail (engine env) h bad)))),
       mkWorld (heap w ++
                  ((fun width => apply_ops (snd (getThumbnail (engine env) h width)) blank)
                     <$> (good ++ [bad])))
               (files w) (stderr w) (browser w)
               ((calls w ++ [call_listThumbnailSizes h])
                  ++ zip_with (call_getThumbnail h) (good ++ [bad])
                       (seq (length (heap w)) (length (good ++ [bad])))))).
    { unfold run. rewrite (get_thumbnails_unfold env self h Hself).
      fold widths. rewrite Hsplit.
      rewrite (list_comprehension_stops env self h Hself _ _ _ _ Hgood Hbad).
      reflexivity. }
    split; [rewrite Hrun; reflexivity|].
    unfold calls_during. fold run. rewrite Hrun. cbn [snd calls].
    rewrite <- app_assoc, drop_app_length.
    apply (selector_widths_asked h (good ++ [bad])).
Qed.

Lemma get_thumbnails_enumerates_witness :
  enumerates_every_width synthetic_env synthetic_raw_file 1%N synthetic_opened
  /\ fst (openraw.get_thumbnails synthetic_env synthetic_raw_file synthetic_opened)
     = Returns synthetic_thumbnails.
Proof.
  apply (get_thumbnails_enumerates synthetic_env synthetic_raw_file 1%N
           synthetic_opened).
  - reflexivity.
  - repeat constructor.
Defined.

(** C7, as worded, fails: the second of three widths cannot be extracted;
    [get_thumbnails] raises, no list is returned, and the selector was called
    twice for three widths. *)
Lemma get_thumbnails_counterexample :
  openraw._rawfile synthetic_raw_file = Some 1%N
  /\ listThumbnailSizes (engine failing_env) 1%N = [160; 500; 42]%N
  /\ fst (openraw.get_thumbnails failing_env synthetic_raw_file empty_world)
     = Raises (Error (Some (OR_ERROR_OTHER 5)))
  /\ selector_widths
       (calls_during (openraw.get_thumbnails failing_env synthetic_raw_file)
                     empty_world) = [160; 500]%N
  /\ ~ enumerates_every_width failing_env synthetic_raw_file 1%N empty_world.
Proof.
  split; [reflexivity|]. split; [reflexivity|].
  split; [vm_compute; reflexivity|]. split; [vm_compute; reflexivity|].
  intros (thumbnails & Hrun & _). vm_compute in Hrun. discriminate.
Qed.

(** ** The byte-length invariant *)

Create HintDb preserve.

Lemma blank_consistent : consistent blank.
Proof. reflexivity. Qed.

Lemma apply_op_consistent (op : bitmap_op) (b : BitmapData) :
  consistent b -> consistent (apply_op op b).
Proof. destruct op; unfold consistent; simpl; auto. Qed.

Lemma apply_ops_consistent (ops : list bitmap_op) (b : BitmapData) :
  consistent b -> consistent (apply_ops ops b).
Proof.
  unfold apply_ops. revert b.
  induction ops as [|op ops IH]; intros b Hb; simpl; [exact Hb|].
  apply IH, apply_op_consistent, Hb.
Qed.

(** A mutator other than [setData] leaves buffer and length alone. *)
Lemma apply_op_leaves_buffer (op : bitmap_op) (b : BitmapData) :
  leaves_buffer op = true ->
  bd_data (apply_op op b) = bd_data b /\ bd_size (apply_op op b) = bd_size b.
Proof. destruct op; simpl; intros H; try discriminate; split; reflexivity. Qed.

Lemma preserves_same_heap {A} (m : M A) :
  (forall w, heap (snd (m w)) = heap w) -> preserves m.
Proof. intros H w Hw. unfold heap_consistent. rewrite H. exact Hw. Qed.

Lemma preserves_ret {A} (a : A) : preserves (ret a).
Proof. apply preserves_same_heap. reflexivity. Qed.

Lemma preserves_raise {A} (e : exn) : preserves (@raise A e).
Proof. apply preserves_same_heap. reflexivity. Qed.

Lemma preserves_bind {A B} (m : M A) (k : A -> M B) :
  preserves m -> (forall a, preserves (k a)) -> preserves (bind m k).
Proof.
  intros Hm Hk w Hw. unfold bind. specialize (Hm w Hw).
  destruct (m w) as [[a|e] w']; simpl in *; [apply Hk, Hm | exact Hm].
Qed.

Lemma preserves_log_call (c : engine_call) : preserves (log_call c).
Proof. apply preserves_same_heap. reflexivity. Qed.

Lemma preserves_new_native : preserves new_native.
Proof.
  intros w Hw. unfold heap_consistent, new_native. simpl.
  apply Forall_app. split; [exact Hw|].
  constructor; [exact blank_consistent | constructor].
Qed.

Lemma preserves_native_get {A} (f : BitmapData -> A) (l : loc) :
  preserves (native_get f l).
Proof.
  apply preserves_same_heap. intros w. unfold native_get.
  destruct (heap w !! l); reflexivity.
Qed.

Lemma preserves_native_apply (ops : list bitmap_op) (l : loc) :
  preserves (native_apply ops l).
Proof.
  intros w Hw. unfold native_apply.
  destruct (heap w !! l) as [b|] eqn:Hb; simpl; [|exact Hw].
  apply Forall_insert; [exact Hw|].
  apply apply_ops_consistent.
  exact (proj1 (Forall_lookup _ _) Hw _ _ Hb).
Qed.

Lemma preserves_native_swap (l1 l2 : loc) : preserves (native_swap l1 l2).
Proof.
  intros w Hw. unfold native_swap.
  destruct (heap w !! l1) as [b1|] eqn:H1; [|exact Hw].
  destruct (heap w !! l2) as [b2|] eqn:H2; [|exact Hw].
  simpl. apply Forall_insert; [apply Forall_insert; [exact Hw|]|].
  - exact (proj1 (Forall_lookup _ _) Hw _ _ H2).
  - exact (proj1 (Forall_lookup _ _) Hw _ _ H1).
Qed.

Lemma preserves_file_open_wb (path : string) : preserves (file_open_wb path).
Proof. apply preserves_same_heap. reflexivity. Qed.

Lemma preserves_file_write (f s : string) : preserves (file_write f s).
Proof. apply preserves_same_heap. reflexivity. Qed.

Lemma preserves_file_close (f : string) : preserves (file_close f).
Proof. apply preserves_ret. Qed.

Lemma preserves_print_stderr (s : string) : preserves (print_stderr s).
Proof. apply preserves_same_heap. reflexivity. Qed.

Lemma preserves_webbrowser (c : browser_call) : preserves (webbrowser c).
Proof. apply preserves_same_heap. reflexivity. Qed.

#[local] Hint Resolve preserves_ret preserves_raise preserves_log_call
  preserves_new_native preserves_native_get preserves_native_apply
  preserves_native_swap preserves_file_open_wb preserves_file_write
  preserves_file_close preserves_print_stderr preserves_webbrowser : preserve.

Ltac preserves_step :=
  lazymatch goal with
  | |- preserves (bind _ _) => apply preserves_bind; [|intros ?]
  | |- preserves (match ?x with _ => _ end) => destruct x
  | |- _ => solve [auto with preserve]
  end.

Lemma preserves_for_each {A} (xs : list A) (body : A -> M unit) :
  (forall x, preserves (body x)) -> preserves (for_each xs body).
Proof.
  intros Hbody. induction xs as [|x xs IH]; simpl; [apply preserves_ret|].
  apply preserves_bind; [apply Hbody | intros _; exact IH].
Qed.

Lemma preserves_list_comprehension {A B} (f : A -> M B) (xs : list A) :
  (forall x, preserves (f x)) -> preserves (list_comprehension f xs).
Proof.
  intros Hf. induction xs as [|x xs IH]; simpl; [apply preserves_ret|].
  apply preserves_bind; [apply Hf | intros y].
  apply preserves_bind; [exact IH | intros ys; apply preserves_ret].
Qed.

Section Preservation.
Context (env : Env).
Import openraw.

Lemma preserves_from_path (path : string) (hint : Type_) :
  preserves (from_path env path hint).
Proof. unfold from_path, RawFile__init. repeat preserves_step. Qed.

Lemma preserves_from_string (data : string) (hint : Type_) :
  preserves (from_string env data hint).
Proof. unfold from_string, RawFile__init. repeat preserves_step. Qed.

Lemma preserves_get_thumbnail (self : RawFile) (width : N) :
  preserves (get_thumbnail env self width).
Proof. unfold get_thumbnail, with_rawfile. repeat preserves_step. Qed.

Lemma preserves_get_thumbnails (self : RawFile) :
  preserves (get_thumbnails env self).
Proof.
  unfold get_thumbnails, get_thumbnail_widths, with_rawfile.
  apply preserves_bind; [repeat preserves_step|intros widths].
  apply preserves_list_comprehension, preserves_get_thumbnail.
Qed.

Lemma preserves_get_raw_data (self : RawFile) (options : or_options) :
  preserves (get_raw_data env self options).
Proof. unfold get_raw_data, with_rawfile. repeat preserves_step. Qed.

Lemma preserves_extract_thumbnail (path destination : string) (flag : bool)
    (base : string) (t : Thumbnail) :
  preserves (thumb.extract_thumbnail env path destination flag base t).
Proof.
  unfold thumb.extract_thumbnail, thumb.write_rgb8pixmap_to_stream,
    get_data_type, get_width, get_height, get_data.
  repeat preserves_step.
Qed.

Lemma preserves_extract_thumbnails (path destination : string) (flag : bool) :
  preserves (thumb.extract_thumbnails env path destination flag).
Proof.
  unfold thumb.extract_thumbnails.
  apply preserves_bind; [apply preserves_from_path|intros raw_file].
  apply preserves_bind; [apply preserves_get_thumbnails|intros thumbnails].
  apply preserves_for_each. intros t. apply preserves_extract_thumbnail.
Qed.

Lemma preserves_extract_raw_image (path destination : string) (flag : bool) :
  preserves (cfa.extract_raw_image env path destination flag).
Proof.
  unfold cfa.extract_raw_image.
  apply preserves_bind; [apply preserves_from_path|intros raw_file].
  apply preserves_bind; [apply preserves_get_raw_data|intros raw_data].
  unfold get_width, get_height, get_bits_per_channel, get_data.
  repeat preserves_step.
Qed.

Lemma preserves_perform (a : action) : preserves (perform env a).
Proof.
  destruct a; simpl;
    auto using preserves_bind, preserves_ret, preserves_from_path,
      preserves_from_string, preserves_get_thumbnail, preserves_get_thumbnails,
      preserves_get_raw_data, preserves_native_apply, preserves_native_swap,
      preserves_extract_thumbnails, preserves_extract_raw_image.
Qed.

Lemma run_actions_consistent (steps : list action) (w : World) :
  heap_consistent w -> heap_consistent (run_actions env steps w).
Proof.
  unfold run_actions. revert w.
  induction steps as [|a steps IH]; intros w Hw; simpl; [exact Hw|].
  apply IH, preserves_perform, Hw.
Qed.

(** C8. After any session of facade calls, driver runs and native mutator
    calls, started with no bitmap around, every [Bitmap] whose [get_data]
    and [get_size] answer is such that the length of the one is the other;
    and calling on any native bitmap a mutator other than [setData] (such as
    [setCompression], [setMin], [setMax] of a raw data) changes the answer of
    neither. *)
Theorem byte_length_invariant (steps : list action) (bitmap : Bitmap) :
  let w := run_actions env steps empty_world in
  (forall (data : string) (size : N),
     fst (get_data bitmap w) = Returns data ->
     fst (get_size bitmap w) = Returns size ->
     N.of_nat (String.length data) = size)
  /\ (forall (target : loc) (op : bitmap_op),
        leaves_buffer op = true ->
        let w' := snd (native_apply [op] target w) in
        fst (get_data bitmap w') = fst (get_data bitmap w)
        /\ fst (get_size bitmap w') = fst (get_size bitmap w)).
Proof.
  intros w.
  assert (Hw : heap_consistent w).
  { apply run_actions_consistent. constructor. }
  clearbody w. split.
  - intros data size. unfold get_data, get_size, native_get.
    destruct (heap w !! _bitmap bitmap) as [b|] eqn:Hb; simpl; [|discriminate].
    intros [= <-] [= <-].
    exact (proj1 (Forall_lookup _ _) Hw _ _ Hb).
  - intros target op Hop. cbv zeta.
    unfold get_data, get_size, native_get, native_apply, loc in *.
    destruct (heap w !! target) as [b|] eqn:Hb; simpl; [|split; reflexivity].
    destruct (decide (target = _bitmap bitmap)) as [->|Hne].
    + rewrite list_lookup_insert_eq by (eapply lookup_lt_Some; exact Hb).
      rewrite Hb. simpl.
      destruct (apply_op_leaves_buffer op b Hop) as [-> ->].
      split; reflexivity.
    + rewrite list_lookup_insert_ne by exact Hne.
      destruct (@lookup nat _ _ _ (_bitmap bitmap) (heap w)); split; reflexivity.
Qed.

End Preservation.

Lemma factories_raise_exactly_without_handle_witness :
  fst (openraw.from_path synthetic_env "missing.cr2" OR_RAWFILE_TYPE_UNKNOWN
         empty_world) = Raises (Error None)
  /\ fst (openraw.from_path synthetic_env "images/duck.cr2"
            OR_RAWFILE_TYPE_UNKNOWN empty_world)
     = Returns (openraw.mkRawFile (Some 1%N))
  /\ fst (openraw.from_string synthetic_env "II*duck" OR_RAWFILE_TYPE_UNKNOWN
            empty_world)
     = Returns (openraw.mkRawFile (Some 2%N)).
Proof.
  destruct (factories_raise_exactly_without_handle synthetic_env "missing.cr2"
              "II*duck" OR_RAWFILE_TYPE_UNKNOWN empty_world)
    as (_ & Hmissing & _ & _ & _ & _ & Hmemory & _).
  destruct (factories_raise_exactly_without_handle synthetic_env
              "images/duck.cr2" "" OR_RAWFILE_TYPE_UNKNOWN empty_world)
    as (_ & _ & Hpath & _).
  split; [apply Hmissing; reflexivity|].
  split; [apply Hpath; reflexivity | apply Hmemory; reflexivity].
Defined.

Lemma extraction_raises_exactly_on_error_code_witness :
  (forall e,
     fst (openraw.get_thumbnail synthetic_env synthetic_raw_file 500 empty_world)
     = Raises e -> e = Error (Some (OR_ERROR_OTHER 5)))
  /\ (exists e,
        fst (openraw.get_raw_data synthetic_env synthetic_raw_file 1%N empty_world)
        = Raises e)
  /\ (exists t : openraw.Thumbnail,
        fst (openraw.get_thumbnail synthetic_env synthetic_raw_file 160 empty_world)
        = Returns t)
  /\ (exists r : openraw.RawData,
        fst (openraw.get_raw_data synthetic_env synthetic_raw_file
               OR_OPTIONS_NONE empty_world) = Returns r).
Proof.
  destruct (extraction_raises_exactly_on_error_code synthetic_env
              synthetic_raw_file 1%N 500 1%N empty_world eq_refl)
    as (_ & Hcode & _ & Hraw & _).
  destruct (extraction_raises_exactly_on_error_code synthetic_env
              synthetic_raw_file 1%N 160 OR_OPTIONS_NONE empty_world eq_refl)
    as (_ & _ & Hthumb & _ & _ & Hdata).
  split; [exact Hcode|]. split; [apply Hraw; discriminate|]. split.
  - destruct (Hthumb eq_refl) as (t & Ht & _). exists t. exact Ht.
  - destruct (Hdata eq_refl) as (r & Hr & _). exists r. exact Hr.
Defined.

Lemma get_thumbnail_deterministic_witness :
  exists data : string,
    fst (openraw.get_data (openraw.mkBitmap 0%nat)
           (snd (openraw.get_thumbnail synthetic_env synthetic_raw_file 160
                   empty_world))) = Returns data
    /\ fst (openraw.get_data (openraw.mkBitmap 1%nat)
              (snd (openraw.get_thumbnail synthetic_env synthetic_raw_file 160
                      (snd (openraw.get_thumbnail synthetic_env
                              synthetic_raw_file 160 empty_world)))))
       = Returns data.
Proof.
  destruct (get_thumbnail_deterministic synthetic_env synthetic_raw_file 1%N
              160 empty_world synthetic_opened eq_refl) as (_ & Htwice & _).
  destruct (Htwice (openraw.mkBitmap 0%nat) (openraw.mkBitmap 1%nat)
                   eq_refl eq_refl) as (_ & data & Hfirst & _ & Hsecond).
  exists data. split; [exact Hfirst | exact Hsecond].
Defined.

Lemma byte_length_invariant_witness :
  let w := run_actions synthetic_env synthetic_session empty_world in
  fst (openraw.get_data (openraw.mkBitmap 1%nat) w) = Returns "12345"
  /\ fst (openraw.get_size (openraw.mkBitmap 1%nat) w) = Returns 5%N
  /\ fst (openraw.get_data (openraw.mkBitmap 1%nat)
            (snd (native_apply [setMax 7] 1%nat w))) = Returns "12345".
Proof.
  intros w.
  destruct (byte_length_invariant synthetic_env synthetic_session
              (openraw.mkBitmap 1%nat)) as (Hlength & Hmutate).
  assert (Hdata : fst (openraw.get_data (openraw.mkBitmap 1%nat) w)
                  = Returns "12345") by (vm_compute; reflexivity).
  split; [exact Hdata|]. split.
  - assert (Hsize : exists size,
              fst (openraw.get_size (openraw.mkBitmap 1%nat) w) = Returns size)
      by (eexists; vm_compute; reflexivity).
    destruct Hsize as (size & Hsize). rewrite Hsize. f_equal.
    symmetry. exact (Hlength "12345" size Hdata Hsize).
  - destruct (Hmutate 1%nat (setMax 7) eq_refl) as (Hsame & _).
    etransitivity; [exact Hsame | exact Hdata].
Defined.

(** ** The drivers from end to end *)
Section DriverRuns.
Context (env : Env) (rawfile_path destination_path : string)
        (open_in_browser : bool).
Import openraw.

(** The whole effect of [from_path]. *)
Lemma from_path_run (path : string) (hint : Type_) (w : World) :
  from_path env path hint w =
  (match newRawFile (engine env) path hint with
   | Some h => Returns (mkRawFile (Some h))
   | None => Raises (Error None)
   end,
   mkWorld (heap w) (files w) (stderr w) (browser w)
           (calls w ++ [call_newRawFile path hint])).
Proof.
  unfold from_path, bind, log_call, raise, ret, RawFile__init.
  destruct (newRawFile (engine env) path hint); reflexivity.
Qed.

(** The world once the raw data of an opened file was extracted. *)
Local Abbreviation raw_extracted :=
  (fun (h : handle) (w : World) =>
     mkWorld
       (heap w ++ [apply_ops (snd (getRawData (engine env) h OR_OPTIONS_NONE)) blank])
       (files w) (stderr w) (browser w)
       (calls w ++ [call_newRawFile rawfile_path OR_RAWFILE_TYPE_UNKNOWN;
                    call_getRawData h (length (heap w)) OR_OPTIONS_NONE])).

Lemma extract_raw_image_fails_to_open (w : World) :
  newRawFile (engine env) rawfile_path OR_RAWFILE_TYPE_UNKNOWN = None ->
  cfa.extract_raw_image env rawfile_path destination_path open_in_browser w
  = (Raises (Error None),
     mkWorld (heap w) (files w) (stderr w) (browser w)
             (calls w ++ [call_newRawFile rawfile_path OR_RAWFILE_TYPE_UNKNOWN])).
Proof.
  intros Hopen. unfold cfa.extract_raw_image. unfold bind at 1.
  rewrite from_path_run, Hopen. reflexivity.
Qed.

Lemma extract_raw_image_fails_to_extract (h : handle) (w : World) :
  newRawFile (engine env) rawfile_path OR_RAWFILE_TYPE_UNKNOWN = Some h ->
  fst (getRawData (engine env) h OR_OPTIONS_NONE) <> OR_ERROR_NONE ->
  cfa.extract_raw_image env rawfile_path destination_path open_in_browser w
  = (Raises (Error (Some (fst (getRawData (engine env) h OR_OPTIONS_NONE)))),
     raw_extracted h w).
Proof.
  intros Hopen Hcode. unfold cfa.extract_raw_image. unfold bind at 1.
  rewrite from_path_run, Hopen. unfold bind at 1.
  rewrite (get_raw_data_run env (mkRawFile (Some h)) h _ _ eq_refl).
  rewrite decide_True by exact Hcode.
  cbn [heap files stderr browser calls]. rewrite <- app_assoc. reflexivity.
Qed.

(** The run of [extract_raw_image] on a file that opens and whose raw data
    is extracted. *)
Lemma extract_raw_image_run (h : handle) (w : World) :
  newRawFile (engine env) rawfile_path OR_RAWFILE_TYPE_UNKNOWN = Some h ->
  fst (getRawData (engine env) h OR_OPTIONS_NONE) = OR_ERROR_NONE ->
  let b := apply_ops (snd (getRawData (engine env) h OR_OPTIONS_NONE)) blank in
  let path :=
    posixpath.abspath (getcwd env)
      (posixpath.join destination_path
         (fst (posixpath.splitext (posixpath.basename rawfile_path)) +:+ ".pgm")) in
  let content :=
    "P5" +:+ Py.nl
    +:+ Py.format_d (Z.of_N (bd_x b)) +:+ " "
    +:+ Py.format_d (Z.of_N (bd_y b)) +:+ Py.nl
    +:+ Py.format_d (2 ^ Z.of_N (bd_bpc b) - 1) +:+ Py.nl
    +:+ bd_data b in
  cfa.extract_raw_image env rawfile_path destination_path open_in_browser w
  = (Returns tt,
     wrote path content (launch open_in_browser (open_new path))
           (raw_extracted h w)).
Proof.
  intros Hopen Hcode b path content.
  unfold cfa.extract_raw_image. unfold bind at 1.
  rewrite from_path_run, Hopen. unfold bind at 1.
  rewrite (get_raw_data_run env (mkRawFile (Some h)) h _ _ eq_refl).
  rewrite decide_False by (rewrite Hcode; intros X; apply X; reflexivity).
  cbn [heap files stderr browser calls]. rewrite <- app_assoc. cbn [app].
  cbv zeta. fold path. fold b.
  pose proof (lookup_fresh (heap w) b) as Hb.
  unfold content. clearbody b path.
  unfold bind, file_open_wb, file_write, file_close, ret,
    get_width, get_height, get_bits_per_channel, get_data, native_get,
    RawData__init, Bitmap__init, loc in *.
  simpl.
  repeat (first [rewrite Hb | rewrite lookup_insert_eq
                | rewrite insert_insert_eq]; simpl).
  unfold wrote, launch, Py.pow2, webbrowser.
  rewrite !append_assoc.
  destruct open_in_browser; simpl; [reflexivity|].
  rewrite app_nil_r. reflexivity.
Qed.

Lemma unmapped_other (tag : N) :
  DATATYPE_TO_MIMETYPE !! OR_DATA_TYPE_OTHER tag = None.
Proof.
  unfold DATATYPE_TO_MIMETYPE.
  rewrite !lookup_insert_ne by discriminate. apply lookup_empty.
Qed.

Local Abbreviation body :=
  (thumb.extract_thumbnail env rawfile_path destination_path open_in_browser
     (fst (posixpath.splitext (posixpath.basename rawfile_path)))).
Local Abbreviation export :=
  (thumbnail_export env rawfile_path destination_path open_in_browser).

(** One round of the loop, whichever branch it takes. *)
Lemma body_export (t : Thumbnail) (w : World) (b : BitmapData) :
  heap w !! _bitmap t = Some b ->
  body t w = (Returns tt, export w b).
Proof.
  intros Hb. unfold thumbnail_export, thumbnail_encoding.
  destruct (bd_dataType b) eqn:Hty.
  - exact (body_pixmap env rawfile_path destination_path open_in_browser
                       t w b Hb Hty).
  - pose proof (body_mime env rawfile_path destination_path open_in_browser
                          t w b "image/jpeg" Hb) as H.
    rewrite Hty in H. exact (H ltac:(discriminate) eq_refl).
  - pose proof (body_mime env rawfile_path destination_path open_in_browser
                          t w b "image/tiff" Hb) as H.
    rewrite Hty in H. exact (H ltac:(discriminate) eq_refl).
  - pose proof (body_mime env rawfile_path destination_path open_in_browser
                          t w b "image/png" Hb) as H.
    rewrite Hty in H. exact (H ltac:(discriminate) eq_refl).
  - pose proof (body_unsupported env rawfile_path destination_path
                                 open_in_browser t w b Hb) as H.
    rewrite Hty in H. exact (H ltac:(discriminate) eq_refl).
  - pose proof (body_unsupported env rawfile_path destination_path
                                 open_in_browser t w b Hb) as H.
    rewrite Hty in H. exact (H ltac:(discriminate) (unmapped_other tag)).
Qed.

Lemma export_heap (w : World) (b : BitmapData) : heap (export w b) = heap w.
Proof.
  unfold thumbnail_export. destruct (thumbnail_encoding env b) as [[]|];
    reflexivity.
Qed.

Lemma loop_export (thumbnails : list Thumbnail) (bitmaps : list BitmapData)
    (w : World) :
  Forall2 (fun t b => heap w !! _bitmap t = Some b) thumbnails bitmaps ->
  for_each thumbnails body w = (Returns tt, fold_left export bitmaps w).
Proof.
  revert bitmaps w.
  induction thumbnails as [|t thumbnails IH]; intros bitmaps w Hall.
  - apply Forall2_nil_inv_l in Hall as ->. reflexivity.
  - apply Forall2_cons_inv_l in Hall as (b & rest & Hb & Hall & ->).
    cbn [for_each fold_left].
    rewrite (then_returns _ _ _ _ tt (body_export t w b Hb)).
    apply IH. rewrite export_heap. exact Hall.
Qed.

Lemma fresh_bitmaps (before items : list BitmapData) :
  Forall2 (fun (t : Thumbnail) b => (before ++ items) !! _bitmap t = Some b)
          (mkBitmap <$> seq (length before) (length items)) items.
Proof.
  revert before. induction items as [|x items IH]; intros before.
  - constructor.
  - cbn [length seq fmap list_fmap]. constructor.
    + cbn [_bitmap]. apply list_lookup_middle. reflexivity.
    + specialize (IH (before ++ [x])).
      rewrite <- app_assoc, length_app, Nat.add_1_r in IH. exact IH.
Qed.

Lemma extract_thumbnails_fails_to_open (w : World) :
  newRawFile (engine env) rawfile_path OR_RAWFILE_TYPE_UNKNOWN = None ->
  thumb.extract_thumbnails env rawfile_path destination_path open_in_browser w
  = (Raises (Error None),
     mkWorld (heap w) (files w) (stderr w) (browser w)
             (calls w ++ [call_newRawFile rawfile_path OR_RAWFILE_TYPE_UNKNOWN])).
Proof.
  intros Hopen. unfold thumb.extract_thumbnails. unfold bind at 1.
  rewrite from_path_run, Hopen. reflexivity.
Qed.

Lemma extract_thumbnails_fails_to_extract (h : handle) (w : World)
    (good rest : list N) (bad : N) :
  newRawFile (engine env) rawfile_path OR_RAWFILE_TYPE_UNKNOWN = Some h ->
  listThumbnailSizes (engine env) h = good ++ bad :: rest ->
  Forall (fun width => fst (getThumbnail (engine env) h width) = OR_ERROR_NONE)
         good ->
  fst (getThumbnail (engine env) h bad) <> OR_ERROR_NONE ->
  thumb.extract_thumbnails env rawfile_path destination_path open_in_browser w
  = (Raises (Error (Some (fst (getThumbnail (engine env) h bad)))),
     mkWorld
       (heap w
        ++ ((fun width => apply_ops (snd (getThumbnail (engine env) h width)) blank)
              <$> (good ++ [bad])))
       (files w) (stderr w) (browser w)
       (calls w
        ++ [call_newRawFile rawfile_path OR_RAWFILE_TYPE_UNKNOWN;
            call_listThumbnailSizes h]
        ++ zip_with (call_getThumbnail h) (good ++ [bad])
             (seq (length (heap w)) (length (good ++ [bad]))))).
Proof.
  intros Hopen Hwidths Hgood Hbad. unfold thumb.extract_thumbnails.
  unfold bind at 1. rewrite from_path_run, Hopen. cbv zeta. unfold bind at 1.
  rewrite (get_thumbnails_unfold env (mkRawFile (Some h)) h eq_refl), Hwidths.
  rewrite (list_comprehension_stops env (mkRawFile (Some h)) h eq_refl
             _ _ _ _ Hgood Hbad).
  cbn [heap files stderr browser calls]. rewrite <- !app_assoc. reflexivity.
Qed.

(** The run of [extract_thumbnails] on a file that opens and whose
    thumbnails are all extracted. *)
Lemma extract_thumbnails_run (h : handle) (w : World) :
  newRawFile (engine env) rawfile_path OR_RAWFILE_TYPE_UNKNOWN = Some h ->
  Forall (fun width => fst (getThumbnail (engine env) h width) = OR_ERROR_NONE)
         (listThumbnailSizes (engine env) h) ->
  thumb.extract_thumbnails env rawfile_path destination_path open_in_browser w
  = (Returns tt,
     fold_left export
       ((fun width => apply_ops (snd (getThumbnail (engine env) h width)) blank)
          <$> listThumbnailSizes (engine env) h)
       (enumerated env rawfile_path h w)).
Proof.
  intros Hopen Hall. unfold thumb.extract_thumbnails.
  unfold bind at 1. rewrite from_path_run, Hopen. cbv zeta. unfold bind at 1.
  rewrite (get_thumbnails_unfold env (mkRawFile (Some h)) h eq_refl).
  rewrite (list_comprehension_all env (mkRawFile (Some h)) h eq_refl _ _ Hall).
  cbn [heap files stderr browser calls]. rewrite <- !app_assoc. cbn [app].
  fold (enumerated env rawfile_path h w).
  apply loop_export. unfold enumerated. cbn [heap].
  pose proof (fresh_bitmaps (heap w)
    ((fun width => apply_ops (snd (getThumbnail (engine env) h width)) blank)
       <$> listThumbnailSizes (engine env) h)) as H.
  rewrite length_fmap in H. exact H.
Qed.

End DriverRuns.

Lemma first_failure {A} (P : A -> Prop) `{!forall x, Decision (P x)}
    (l : list A) :
  Forall P l
  \/ exists good bad rest, l = good ++ bad :: rest /\ Forall P good /\ ~ P bad.
Proof.
  induction l as [|x l IH]; [left; constructor|].
  destruct (decide (P x)) as [Hx|Hx].
  - destruct IH as [Hall|(good & bad & rest & -> & Hgood & Hbad)].
    + left. constructor; assumption.
    + right. exists (x :: good), bad, rest.
      split; [reflexivity|]. split; [constructor; assumption|exact Hbad].
  - right. exists [], x, l. split; [reflexivity|]. split; [constructor|exact Hx].
Qed.

(** ** What the drivers do in every case *)
Section DriverOutcomes.
Context (env : Env) (rawfile_path destination_path : string)
        (open_in_browser : bool).
Import openraw.

(** X1. [extract_raw_image] returns only for a file that opens and whose
    raw data the engine extracts. When the file does not open it raises
    [Error] without a code, when the extraction fails it raises [Error] with
    the engine's code; and an [Error] comes before any output: no file was
    created or truncated, nothing was printed and no viewer launched. *)
Theorem extract_raw_image_outcome (w : World) :
  let run :=
    cfa.extract_raw_image env rawfile_path destination_path open_in_browser w in
  (fst run = Returns tt -> raw_data_extractable env rawfile_path)
  /\ (newRawFile (engine env) rawfile_path OR_RAWFILE_TYPE_UNKNOWN = None ->
      fst run = Raises (Error None))
  /\ (forall h,
        newRawFile (engine env) rawfile_path OR_RAWFILE_TYPE_UNKNOWN = Some h ->
        fst (getRawData (engine env) h OR_OPTIONS_NONE) <> OR_ERROR_NONE ->
        fst run
        = Raises (Error (Some (fst (getRawData (engine env) h OR_OPTIONS_NONE)))))
  /\ (forall code,
        fst run = Raises (Error code) ->
        files (snd run) = files w /\ stderr (snd run) = stderr w
        /\ browser (snd run) = browser w).
Proof.
  intros run. unfold run, raw_data_extractable.
  destruct (newRawFile (engine env) rawfile_path OR_RAWFILE_TYPE_UNKNOWN)
    as [h|] eqn:Hopen.
  - destruct (decide (fst (getRawData (engine env) h OR_OPTIONS_NONE)
                      = OR_ERROR_NONE)) as [Hcode|Hcode].
    + rewrite (extract_raw_image_run env rawfile_path destination_path
                 open_in_browser h w Hopen Hcode).
      split; [intros _; exists h; split; [reflexivity|exact Hcode]|].
      split; [discriminate|]. split; [|discriminate].
      intros h' [= <-] Hbad. contradiction.
    + rewrite (extract_raw_image_fails_to_extract env rawfile_path
                 destination_path open_in_browser h w Hopen Hcode).
      split; [discriminate|].
      split; [discriminate|]. split; [intros h' [= <-] _; reflexivity|].
      intros code _. repeat split.
  - rewrite (extract_raw_image_fails_to_open env rawfile_path destination_path
               open_in_browser w Hopen).
    split; [discriminate|].
    split; [reflexivity|]. split; [discriminate|].
    intros code _. repeat split.
Qed.

(** X2. [extract_thumbnails] returns only for a file that opens and whose
    listed thumbnails the engine all extracts. When the file does not open
    it raises [Error] without a code, and when a width fails it raises the
    [Error] of the first such width. An [Error] comes before any output:
    no thumbnail at all was written, not even those extracted before the
    failing one, nothing was printed and no viewer launched. *)
Theorem extract_thumbnails_outcome (w : World) :
  let run :=
    thumb.extract_thumbnails env rawfile_path destination_path
                             open_in_browser w in
  (fst run = Returns tt -> thumbnails_extractable env rawfile_path)
  /\ (newRawFile (engine env) rawfile_path OR_RAWFILE_TYPE_UNKNOWN = None ->
      fst run = Raises (Error None))
  /\ (forall h good bad rest,
        newRawFile (engine env) rawfile_path OR_RAWFILE_TYPE_UNKNOWN = Some h ->
        listThumbnailSizes (engine env) h = good ++ bad :: rest ->
        Forall (fun width =>
                  fst (getThumbnail (engine env) h width) = OR_ERROR_NONE) good ->
        fst (getThumbnail (engine env) h bad) <> OR_ERROR_NONE ->
        fst run = Raises (Error (Some (fst (getThumbnail (engine env) h bad)))))
  /\ (forall code,
        fst run = Raises (Error code) ->
        files (snd run) = files w /\ stderr (snd run) = stderr w
        /\ browser (snd run) = browser w).
Proof.
  intros run. unfold run, thumbnails_extractable.
  destruct (newRawFile (engine env) rawfile_path OR_RAWFILE_TYPE_UNKNOWN)
    as [h|] eqn:Hopen.
  - destruct (first_failure
                (fun width => fst (getThumbnail (engine env) h width) = OR_ERROR_NONE)
                (listThumbnailSizes (engine env) h))
      as [Hall|(good & bad & rest & Hwidths & Hgood & Hbad)].
    + rewrite (extract_thumbnails_run env rawfile_path destination_path
                 open_in_browser h w Hopen Hall).
      split; [intros _; exists h; split; [reflexivity|exact Hall]|].
      split; [discriminate|]. split; [|discriminate].
      intros h' good bad rest [= <-] Hwidths Hgood Hbad. exfalso.
      rewrite Hwidths in Hall. apply Forall_app in Hall as [_ Hall].
      apply Forall_cons in Hall as [Hok _]. contradiction.
    + rewrite (extract_thumbnails_fails_to_extract env rawfile_path
                 destination_path open_in_browser h w good rest bad
                 Hopen Hwidths Hgood Hbad).
      split; [discriminate|].
      split; [discriminate|]. split; [|intros code _; repeat split].
      intros h' good' bad' rest' [= <-] Hwidths' Hgood' Hbad'.
      pose proof (extract_thumbnails_fails_to_extract env rawfile_path
                    destination_path open_in_browser h w good rest bad
                    Hopen Hwidths Hgood Hbad) as Hfirst.
      rewrite (extract_thumbnails_fails_to_extract env rawfile_path
                 destination_path open_in_browser h w good' rest' bad'
                 Hopen Hwidths' Hgood' Hbad') in Hfirst.
      injection Hfirst as Hcode _. cbn [fst]. rewrite Hcode. reflexivity.
  - rewrite (extract_thumbnails_fails_to_open env rawfile_path destination_path
               open_in_browser w Hopen).
    split; [discriminate|].
    split; [reflexivity|]. split; [discriminate|].
    intros code _. repeat split.
Qed.

End DriverOutcomes.

(** ** The thumbnail driver, thumbnail by thumbnail *)
Section ThumbnailByThumbnail.
Context (env : Env) (rawfile_path destination_path : string).
Import openraw.

Local Abbreviation produced :=
  (fun (h : handle) =>
     (fun width => apply_ops (snd (getThumbnail (engine env) h width)) blank)
       <$> listThumbnailSizes (engine env) h).
Local Abbreviation succeeds :=
  (fun (h : handle) (width : N) =>
     fst (getThumbnail (engine env) h width) = OR_ERROR_NONE).

Lemma fold_export_stderr (flag : bool) (bitmaps : list BitmapData) (w : World) :
  stderr (fold_left (thumbnail_export env rawfile_path destination_path flag) bitmaps w)
  = stderr w +:+ thumbnail_diagnostics env rawfile_path bitmaps.
Proof.
  revert w. induction bitmaps as [|b bitmaps IH]; intros w.
  - cbn [fold_left thumbnail_diagnostics]. rewrite append_nil_r. reflexivity.
  - cbn [fold_left thumbnail_diagnostics]. rewrite IH. unfold thumbnail_export.
    destruct (thumbnail_encoding env b) as [[bytes suffix]|].
    + reflexivity.
    + unfold complained. cbn [stderr]. rewrite !append_assoc. reflexivity.
Qed.

Lemma fold_export_browser (flag : bool) (bitmaps : list BitmapData) (w : World) :
  browser (fold_left (thumbnail_export env rawfile_path destination_path flag) bitmaps w)
  = browser w
    ++ (if flag
        then open_new_tab
               <$> omap (thumbnail_target env rawfile_path destination_path) bitmaps
        else []).
Proof.
  revert w. induction bitmaps as [|b bitmaps IH]; intros w.
  - cbn [fold_left omap list_omap fmap list_fmap].
    destruct flag; rewrite app_nil_r; reflexivity.
  - cbn [fold_left]. rewrite IH. unfold thumbnail_export, thumbnail_target.
    cbn [omap list_omap].
    destruct (thumbnail_encoding env b) as [[bytes suffix]|].
    + unfold wrote, launch. cbn [browser].
      destruct flag; cbn [fmap list_fmap]; rewrite <- app_assoc; reflexivity.
    + reflexivity.
Qed.

Lemma fold_export_untouched (flag : bool) (bitmaps : list BitmapData)
    (w : World) (path : string) :
  Forall (fun b => thumbnail_target env rawfile_path destination_path b <> Some path)
         bitmaps ->
  files (fold_left (thumbnail_export env rawfile_path destination_path flag) bitmaps w)
    !! path
  = files w !! path.
Proof.
  revert w. induction bitmaps as [|b bitmaps IH]; intros w Hall; [reflexivity|].
  apply Forall_cons in Hall as [Hb Hall].
  cbn [fold_left]. rewrite (IH _ Hall). unfold thumbnail_export, thumbnail_target in *.
  destruct (thumbnail_encoding env b) as [[bytes suffix]|]; [|reflexivity].
  unfold wrote. cbn [files]. apply lookup_insert_ne. congruence.
Qed.

(** X4. On a file that opens and whose thumbnails are all extracted, the
    error stream gains exactly one line for each
    thumbnail that is neither a packed RGB pixmap nor of a type with a MIME
    type, in the order of the thumbnails, and nothing else. *)
Theorem extract_thumbnails_diagnostics (open_in_browser : bool) (h : handle)
    (w : World) :
  newRawFile (engine env) rawfile_path OR_RAWFILE_TYPE_UNKNOWN = Some h ->
  Forall (succeeds h) (listThumbnailSizes (engine env) h) ->
  let run :=
    thumb.extract_thumbnails env rawfile_path destination_path
                             open_in_browser w in
  stderr (snd run) = stderr w +:+ thumbnail_diagnostics env rawfile_path (produced h)
  /\ (Forall (fun b => bd_dataType b = OR_DATA_TYPE_PIXMAP_8RGB
                       \/ is_Some (DATATYPE_TO_MIMETYPE !! bd_dataType b))
             (produced h) ->
      stderr (snd run) = stderr w).
Proof.
  intros Hopen Hall run. unfold run.
  rewrite (extract_thumbnails_run env rawfile_path destination_path
             open_in_browser h w Hopen Hall).
  cbn [snd]. rewrite fold_export_stderr.
  change (stderr (enumerated env rawfile_path h w)) with (stderr w).
  split; [reflexivity|]. intros Hsupported.
  rewrite <- (append_nil_r (stderr w)) at 2. f_equal.
  induction Hsupported as [|b bitmaps Hb _ IH]; [reflexivity|].
  cbn [thumbnail_diagnostics]. unfold thumbnail_encoding.
  destruct Hb as [->|[mime Hmime]]; [exact IH|].
  destruct (bd_dataType b); try exact IH.
  - discriminate Hmime.
  - rewrite unmapped_other in Hmime. discriminate Hmime.
Qed.

(** X6. On a file that opens and whose thumbnails are all extracted, with
    the viewer asked for, the viewer is handed one
    path per thumbnail written, the path it was written to, in the order of
    the thumbnails; a skipped thumbnail is not shown. *)
Theorem extract_thumbnails_launches (h : handle) (w : World) :
  newRawFile (engine env) rawfile_path OR_RAWFILE_TYPE_UNKNOWN = Some h ->
  Forall (succeeds h) (listThumbnailSizes (engine env) h) ->
  browser (snd (thumb.extract_thumbnails env rawfile_path destination_path
                                         true w))
  = browser w
    ++ (open_new_tab
          <$> omap (thumbnail_target env rawfile_path destination_path) (produced h)).
Proof.
  intros Hopen Hall.
  rewrite (extract_thumbnails_run env rawfile_path destination_path
             true h w Hopen Hall).
  cbn [snd]. rewrite fold_export_browser. reflexivity.
Qed.

(** X7. On a file that opens and whose thumbnails are all extracted, the
    names of the files written are not made unique: what is left under the
    name of an exported thumbnail is the bytes of the last thumbnail that
    goes under that name, so that of a width listed twice one file is left,
    written twice. *)
Theorem extract_thumbnails_files (open_in_browser : bool) (h : handle)
    (w : World) (earlier later : list BitmapData) (b : BitmapData)
    (bytes suffix : string) :
  newRawFile (engine env) rawfile_path OR_RAWFILE_TYPE_UNKNOWN = Some h ->
  Forall (succeeds h) (listThumbnailSizes (engine env) h) ->
  produced h = earlier ++ b :: later ->
  thumbnail_encoding env b = Some (bytes, suffix) ->
  let path :=
    destination_file env destination_path
      (thumbnail_file rawfile_path (bd_x b) (bd_y b) suffix) in
  Forall (fun b' =>
            thumbnail_target env rawfile_path destination_path b' <> Some path)
         later ->
  files (snd (thumb.extract_thumbnails env rawfile_path destination_path
                                       open_in_browser w)) !! path
  = Some bytes.
Proof.
  intros Hopen Hall Hsplit Hencode path Hlater.
  rewrite (extract_thumbnails_run env rawfile_path destination_path
             open_in_browser h w Hopen Hall).
  cbn [snd].
  rewrite Hsplit, fold_left_app. cbn [fold_left].
  rewrite (fold_export_untouched _ _ _ _ Hlater).
  unfold thumbnail_export at 1. rewrite Hencode. unfold wrote. cbn [files].
  apply lookup_insert_eq.
Qed.

End ThumbnailByThumbnail.

(** X5. Without the request for the viewer neither driver launches it,
    however the run ends. *)
Theorem viewer_only_on_request (env : Env)
    (rawfile_path destination_path : string) (w : World) :
  browser (snd (thumb.extract_thumbnails env rawfile_path destination_path
                                         false w)) = browser w
  /\ browser (snd (cfa.extract_raw_image env rawfile_path destination_path
                                         false w)) = browser w.
Proof.
  destruct (newRawFile (engine env) rawfile_path OR_RAWFILE_TYPE_UNKNOWN)
    as [h|] eqn:Hopen.
  - split.
    + destruct (first_failure
                  (fun width => fst (getThumbnail (engine env) h width)
                                = OR_ERROR_NONE)
                  (listThumbnailSizes (engine env) h))
        as [Hall|(good & bad & rest & Hwidths & Hgood & Hbad)].
      * rewrite (extract_thumbnails_run env rawfile_path destination_path
                   false h w Hopen Hall).
        cbn [snd]. rewrite fold_export_browser. apply app_nil_r.
      * rewrite (extract_thumbnails_fails_to_extract env rawfile_path
                   destination_path false h w good rest bad
                   Hopen Hwidths Hgood Hbad). reflexivity.
    + destruct (decide (fst (getRawData (engine env) h OR_OPTIONS_NONE)
                        = OR_ERROR_NONE)) as [Hcode|Hcode].
      * rewrite (extract_raw_image_run env rawfile_path destination_path
                   false h w Hopen Hcode).
        unfold wrote, launch. cbn [snd browser]. apply app_nil_r.
      * rewrite (extract_raw_image_fails_to_extract env rawfile_path
                   destination_path false h w Hopen Hcode). reflexivity.
  - rewrite (extract_thumbnails_fails_to_open env rawfile_path destination_path
               false w Hopen).
    rewrite (extract_raw_image_fails_to_open env rawfile_path destination_path
               false w Hopen).
    split; reflexivity.
Qed.

(** ** Batches of files *)



Section Batches.
Context (env : Env) (destination : string) (browser : bool).







End Batches.

(** ** The headers read back *)

Lemma digit_not_white (c : ascii) : is_digit c = true -> is_white c = false.
Proof.
  unfold is_digit, is_white. intros H.
  apply andb_true_iff in H as [H1 H2].
  apply N.leb_le in H1, H2.
  apply orb_false_iff. split.
  - apply N.eqb_neq. lia.
  - apply andb_false_iff. right. apply N.leb_gt. lia.
Qed.

Lemma span_digits_uint (d : Decimal.uint) (c : ascii) (rest : string) :
  is_digit c = false ->
  span_digits (NilEmpty.string_of_uint d +:+ String c rest)
  = (NilEmpty.string_of_uint d, String c rest).
Proof.
  intros Hc. induction d; cbn [NilEmpty.string_of_uint];
    rewrite ?append_nil_l, ?append_cons; cbn [span_digits];
    rewrite ?Hc, ?IHd; reflexivity.
Qed.

(** What [%d] prints for a number that is not negative: digits, at least
    one. *)
Lemma format_d_digits (n : Z) :
  0 <= n ->
  exists d,
    Py.format_d n = NilEmpty.string_of_uint d
    /\ exists c s, NilEmpty.string_of_uint d = String c s /\ is_digit c = true.
Proof.
  intros Hn. unfold Py.format_d, NilZero.string_of_int, NilZero.string_of_uint.
  destruct n as [|p|p]; [| |lia].
  - exists (Decimal.D0 Decimal.Nil). split; [reflexivity|].
    eexists _, _. split; reflexivity.
  - cbn [Z.to_int]. pose proof (DecimalPos.Unsigned.to_uint_nonnil p) as Hnil.
    exists (Pos.to_uint p). split.
    + destruct (Pos.to_uint p); [contradiction|reflexivity..].
    + destruct (Pos.to_uint p); [contradiction|..];
        eexists _, _; split; reflexivity.
Qed.

Lemma read_number_format_d (n : Z) (c : ascii) (rest : string) :
  0 <= n -> is_digit c = false ->
  read_number (Py.format_d n +:+ String c rest) = Some (n, String c rest).
Proof.
  intros Hn Hc. unfold read_number.
  destruct (format_d_digits n Hn) as (d & Hd & a & s & Hs & _).
  rewrite Hd, (span_digits_uint d c rest Hc), <- Hd.
  rewrite parse_format_d. rewrite Hd, Hs. reflexivity.
Qed.

Lemma skip_white_format_d (n : Z) (rest : string) :
  0 <= n -> skip_white (Py.format_d n +:+ rest) = Py.format_d n +:+ rest.
Proof.
  intros Hn. destruct (format_d_digits n Hn) as (d & Hd & a & s & Hs & Ha).
  rewrite Hd, Hs, append_cons. cbn [skip_white].
  rewrite (digit_not_white a Ha). reflexivity.
Qed.

Lemma read_field_format_d (white : ascii) (n : Z) (c : ascii) (rest : string) :
  is_white white = true -> 0 <= n -> is_digit c = false ->
  read_field (String white (Py.format_d n +:+ String c rest))
  = Some (n, String c rest).
Proof.
  intros Hwhite Hn Hc. cbn [read_field]. rewrite Hwhite.
  rewrite (skip_white_format_d n _ Hn). apply read_number_format_d; assumption.
Qed.

(** A header laid out as magic, white, width, white, height, white, maximal
    value, white reads back as its fields, whatever the samples are. *)
Lemma read_pnm_layout (m1 m2 : ascii) (width height maxval : Z)
    (samples : string) :
  0 <= width -> 0 <= height -> 0 <= maxval ->
  read_pnm (String m1 (String m2 (String Py.lf
              (Py.format_d width +:+ String " "%char
                 (Py.format_d height +:+ String Py.lf
                    (Py.format_d maxval +:+ String Py.lf samples))))))
  = Some (String m1 (String m2 ""), width, height, maxval, samples).
Proof.
  intros Hw Hh Hm. cbn [read_pnm].
  rewrite (read_field_format_d Py.lf width " "%char _ eq_refl Hw eq_refl).
  rewrite (read_field_format_d " "%char height Py.lf _ eq_refl Hh eq_refl).
  rewrite (read_field_format_d Py.lf maxval Py.lf _ eq_refl Hm eq_refl).
  reflexivity.
Qed.

(** X10. [write_rgb8pixmap_to_stream] appends to the stream, whatever it
    holds already, and changes nothing else; what it appends reads back as a
    portable pixmap with magic number P6, the width and the height of the
    bitmap, the maximal value 255, and the byte buffer of the bitmap as
    samples, even when the buffer itself starts with digits or white
    space. *)
Theorem write_rgb8pixmap_to_stream_reads_back (bitmap : openraw.Bitmap)
    (stream : string) (w : World) (b : BitmapData) :
  heap w !! openraw._bitmap bitmap = Some b ->
  exists appended,
    thumb.write_rgb8pixmap_to_stream bitmap stream w
    = (Returns (stream +:+ appended), w)
    /\ read_pnm appended
       = Some ("P6", Z.of_N (bd_x b), Z.of_N (bd_y b), 255, bd_data b).
Proof.
  intros Hb. exists (ppm_bytes (bd_x b) (bd_y b) (bd_data b)). split.
  - unfold thumb.write_rgb8pixmap_to_stream, bind,
      openraw.get_width, openraw.get_height, openraw.get_data, ret.
    rewrite !(native_get_lookup _ _ _ _ Hb).
    unfold ppm_bytes. rewrite !append_assoc. reflexivity.
  - change (ppm_bytes (bd_x b) (bd_y b) (bd_data b))
      with (String "P"%char (String "6"%char (String Py.lf
              (Py.format_d (Z.of_N (bd_x b)) +:+ String " "%char
                 (Py.format_d (Z.of_N (bd_y b)) +:+ String Py.lf
                    (Py.format_d 255 +:+ String Py.lf (bd_data b))))))).
    apply read_pnm_layout;
      [apply N2Z.is_nonneg | apply N2Z.is_nonneg | discriminate].
Qed.

(** X11. The file that [extract_raw_image] leaves for a file that opens and
    yields its raw data reads back as a portable graymap with magic number
    P5, the width and the height of the raw data, the maximal value
    2^bpc - 1, and the byte buffer as samples. *)
Theorem extract_raw_image_reads_back (env : Env)
    (rawfile_path destination_path : string) (open_in_browser : bool)
    (h : handle) (w : World) :
  newRawFile (engine env) rawfile_path OR_RAWFILE_TYPE_UNKNOWN = Some h ->
  fst (getRawData (engine env) h OR_OPTIONS_NONE) = OR_ERROR_NONE ->
  let b := apply_ops (snd (getRawData (engine env) h OR_OPTIONS_NONE)) blank in
  let path :=
    posixpath.abspath (getcwd env)
      (posixpath.join destination_path
         (fst (posixpath.splitext (posixpath.basename rawfile_path)) +:+ ".pgm")) in
  exists content,
    files (snd (cfa.extract_raw_image env rawfile_path destination_path
                                      open_in_browser w)) !! path
    = Some content
    /\ read_pnm content
       = Some ("P5", Z.of_N (bd_x b), Z.of_N (bd_y b),
               2 ^ Z.of_N (bd_bpc b) - 1, bd_data b).
Proof.
  intros Hopen Hcode b path.
  rewrite (extract_raw_image_run env rawfile_path destination_path
             open_in_browser h w Hopen Hcode).
  fold b. fold path. unfold wrote. cbn [snd files].
  eexists. split; [apply lookup_insert_eq|].
  assert (Hmax : 0 <= 2 ^ Z.of_N (bd_bpc b) - 1).
  { pose proof (Z.pow_pos_nonneg 2 (Z.of_N (bd_bpc b))). lia. }
  exact (read_pnm_layout "P"%char "5"%char _ _ _ (bd_data b)
           (N2Z.is_nonneg _) (N2Z.is_nonneg _) Hmax).
Qed.

(** ** The facade in use *)
Section FacadeInUse.
Context (env : Env).
Import openraw.

Lemma get_thumbnail_raises (self : RawFile) (h : handle) (width : N)
    (w : World) (e : exn) :
  _rawfile self = Some h ->
  fst (get_thumbnail env self width w) = Raises e ->
  exists code, e = Error (Some code) /\ code <> OR_ERROR_NONE.
Proof.
  intros Hself. rewrite (get_thumbnail_run env self h width w Hself).
  destruct (decide _) as [Hcode|Hcode]; cbn [fst]; [|discriminate].
  intros [= <-]. eexists. split; [reflexivity|exact Hcode].
Qed.

Lemma get_raw_data_raises (self : RawFile) (h : handle) (options : or_options)
    (w : World) (e : exn) :
  _rawfile self = Some h ->
  fst (get_raw_data env self options w) = Raises e ->
  exists code, e = Error (Some code) /\ code <> OR_ERROR_NONE.
Proof.
  intros Hself. rewrite (get_raw_data_run env self h options w Hself).
  destruct (decide _) as [Hcode|Hcode]; cbn [fst]; [|discriminate].
  intros [= <-]. eexists. split; [reflexivity|exact Hcode].
Qed.

Lemma get_thumbnails_raises (self : RawFile) (h : handle) (w : World) (e : exn) :
  _rawfile self = Some h ->
  fst (get_thumbnails env self w) = Raises e ->
  exists code, e = Error (Some code) /\ code <> OR_ERROR_NONE.
Proof.
  intros Hself. rewrite (get_thumbnails_unfold env self h Hself).
  destruct (first_failure
              (fun width => fst (getThumbnail (engine env) h width) = OR_ERROR_NONE)
              (listThumbnailSizes (engine env) h))
    as [Hall|(good & bad & rest & -> & Hgood & Hbad)].
  - rewrite (list_comprehension_all env self h Hself _ _ Hall). discriminate.
  - rewrite (list_comprehension_stops env self h Hself _ _ _ _ Hgood Hbad).
    intros [= <-]. eexists. split; [reflexivity|exact Hbad].
Qed.

(** X12. A [RawFile] that [from_path] or [from_string] returned holds the
    session the engine opened, and answers: [get_type], [get_orientation]
    and [get_thumbnail_widths] return what the engine says for that session
    and never raise, the first two without a trace in the world; and what
    [get_thumbnail], [get_thumbnails] and [get_raw_data] can raise is an
    [Error] with an engine code other than [OR_ERROR_NONE], nothing else. *)
Theorem factory_made_raw_file_answers (path data : string) (hint : Type_)
    (w w0 : World) (raw_file : RawFile) :
  from_path env path hint w = (Returns raw_file, w0)
  \/ from_string env data hint w = (Returns raw_file, w0) ->
  exists h,
    _rawfile raw_file = Some h
    /\ (newRawFile (engine env) path hint = Some h
        \/ newRawFileFromMemory (engine env) data hint = Some h)
    /\ forall w1,
         get_type env raw_file w1 = (Returns (type (engine env) h), w1)
         /\ get_orientation env raw_file w1
            = (Returns (getOrientation (engine env) h), w1)
         /\ fst (get_thumbnail_widths env raw_file w1)
            = Returns (listThumbnailSizes (engine env) h)
         /\ (forall width e,
               fst (get_thumbnail env raw_file width w1) = Raises e ->
               exists code, e = Error (Some code) /\ code <> OR_ERROR_NONE)
         /\ (forall e,
               fst (get_thumbnails env raw_file w1) = Raises e ->
               exists code, e = Error (Some code) /\ code <> OR_ERROR_NONE)
         /\ (forall options e,
               fst (get_raw_data env raw_file options w1) = Raises e ->
               exists code, e = Error (Some code) /\ code <> OR_ERROR_NONE).
Proof.
  intros Hmade.
  assert (Hh : exists h, _rawfile raw_file = Some h
                 /\ (newRawFile (engine env) path hint = Some h
                     \/ newRawFileFromMemory (engine env) data hint = Some h)).
  { destruct Hmade as [Hmade|Hmade].
    - unfold from_path, bind, log_call, raise, ret, RawFile__init in Hmade.
      destruct (newRawFile (engine env) path hint) as [h|]; [|discriminate].
      injection Hmade as <- _. exists h. split; [reflexivity|left; reflexivity].
    - unfold from_string, bind, log_call, raise, ret, RawFile__init in Hmade.
      destruct (newRawFileFromMemory (engine env) data hint) as [h|];
        [|discriminate].
      injection Hmade as <- _. exists h. split; [reflexivity|right; reflexivity]. }
  destruct Hh as (h & Hself & Hengine).
  exists h. split; [exact Hself|]. split; [exact Hengine|].
  intros w1.
  unfold get_type, get_orientation, get_thumbnail_widths, with_rawfile.
  rewrite Hself. split; [reflexivity|]. split; [reflexivity|].
  split; [reflexivity|]. split; [|split].
  - intros width e. apply (get_thumbnail_raises raw_file h). exact Hself.
  - intros e. apply (get_thumbnails_raises raw_file h). exact Hself.
  - intros options e. apply (get_raw_data_raises raw_file h). exact Hself.
Qed.

(** X14. A [RawData] that [get_raw_data] returned keeps one native object
    under [_rawdata] and under [_bitmap]: dimensions set through [_rawdata]
    are what [get_width] and [get_height] return from then on, while
    [get_data] and [get_size] answer as before. *)
Theorem raw_data_is_one_object (self : RawFile) (options : or_options)
    (w w1 : World) (raw_data : RawData) (x y : N) :
  get_raw_data env self options w = (Returns raw_data, w1) ->
  let w2 := snd (native_apply [setDimensions x y] (_rawdata raw_data) w1) in
  fst (get_width raw_data w2) = Returns x
  /\ fst (get_height raw_data w2) = Returns y
  /\ fst (get_data raw_data w2) = fst (get_data raw_data w1)
  /\ fst (get_size raw_data w2) = fst (get_size raw_data w1)
  /\ exists data, fst (get_data raw_data w1) = Returns data.
Proof.
  intros Hrun.
  destruct (_rawfile self) as [h|] eqn:Hself.
  - rewrite (get_raw_data_run env self h options w Hself) in Hrun.
    destruct (decide _); [discriminate|].
    injection Hrun as <- <-. cbv zeta.
    unfold get_width, get_height, get_data, get_size, native_get, native_apply,
      RawData__init, Bitmap__init, loc.
    cbn [_rawdata _bitmap as_Bitmap heap].
    rewrite !lookup_fresh. cbn [snd heap].
    rewrite !insert_fresh, !lookup_fresh. cbn [fst].
    repeat split. eexists. reflexivity.
  - unfold get_raw_data, with_rawfile, bind, new_native, raise in Hrun.
    rewrite Hself in Hrun. discriminate.
Qed.

Lemma get_thumbnail_heap (self : RawFile) (width : N) (w : World) :
  exists x, heap (snd (get_thumbnail env self width w)) = heap w ++ [x].
Proof.
  destruct (_rawfile self) as [h|] eqn:Hself.
  - rewrite (get_thumbnail_run env self h width w Hself). eexists. reflexivity.
  - unfold get_thumbnail, with_rawfile, bind, new_native, raise.
    rewrite Hself. eexists. reflexivity.
Qed.

Lemma get_raw_data_heap (self : RawFile) (options : or_options) (w : World) :
  exists x, heap (snd (get_raw_data env self options w)) = heap w ++ [x].
Proof.
  destruct (_rawfile self) as [h|] eqn:Hself.
  - rewrite (get_raw_data_run env self h options w Hself). eexists. reflexivity.
  - unfold get_raw_data, with_rawfile, bind, new_native, raise.
    rewrite Hself. eexists. reflexivity.
Qed.

Lemma list_comprehension_heap (self : RawFile) (widths : list N) (w : World) :
  exists extra,
    heap (snd (list_comprehension (get_thumbnail env self) widths w))
    = heap w ++ extra.
Proof.
  revert w. induction widths as [|width widths IH]; intros w.
  - exists []. rewrite app_nil_r. reflexivity.
  - cbn [list_comprehension]. unfold bind at 1.
    destruct (get_thumbnail_heap self width w) as [x Hx].
    destruct (get_thumbnail env self width w) as [[t|e] w1]; cbn [snd] in Hx.
    + unfold bind at 1. destruct (IH w1) as [extra Hextra].
      destruct (list_comprehension (get_thumbnail env self) widths w1)
        as [[ts|e] w2]; unfold ret; cbn [snd] in *;
        exists (x :: extra); rewrite Hextra, Hx, <- app_assoc; reflexivity.
    + exists [x]. exact Hx.
Qed.

Lemma get_thumbnails_heap (self : RawFile) (w : World) :
  exists extra, heap (snd (get_thumbnails env self w)) = heap w ++ extra.
Proof.
  unfold get_thumbnails, get_thumbnail_widths, with_rawfile.
  destruct (_rawfile self) as [h|].
  - unfold bind at 1. unfold bind at 1. unfold log_call, ret.
    match goal with
    | |- context [list_comprehension ?f ?ws ?w1] =>
        destruct (list_comprehension_heap self ws w1) as [extra Hextra]
    end.
    exists extra. exact Hextra.
  - exists []. rewrite app_nil_r. reflexivity.
Qed.

Lemma fold_export_heap (path destination : string) (flag : bool)
    (bitmaps : list BitmapData) (w : World) :
  heap (fold_left (thumbnail_export env path destination flag) bitmaps w) = heap w.
Proof.
  revert w. induction bitmaps as [|b bitmaps IH]; intros w; [reflexivity|].
  cbn [fold_left]. rewrite IH. unfold thumbnail_export.
  destruct (thumbnail_encoding env b) as [[]|]; reflexivity.
Qed.

Lemma extract_thumbnails_heap (path destination : string) (flag : bool)
    (w : World) :
  exists extra,
    heap (snd (thumb.extract_thumbnails env path destination flag w))
    = heap w ++ extra.
Proof.
  destruct (newRawFile (engine env) path OR_RAWFILE_TYPE_UNKNOWN) as [h|] eqn:Hopen.
  - destruct (first_failure
                (fun width => fst (getThumbnail (engine env) h width) = OR_ERROR_NONE)
                (listThumbnailSizes (engine env) h))
      as [Hall|(good & bad & rest & Hwidths & Hgood & Hbad)].
    + rewrite (extract_thumbnails_run env path destination flag h w Hopen Hall).
      cbn [snd]. rewrite fold_export_heap. eexists. reflexivity.
    + rewrite (extract_thumbnails_fails_to_extract env path destination flag
                 h w good rest bad Hopen Hwidths Hgood Hbad).
      eexists. reflexivity.
  - rewrite (extract_thumbnails_fails_to_open env path destination flag w Hopen).
    exists []. rewrite app_nil_r. reflexivity.
Qed.

Lemma extract_raw_image_heap (path destination : string) (flag : bool)
    (w : World) :
  exists extra,
    heap (snd (cfa.extract_raw_image env path destination flag w))
    = heap w ++ extra.
Proof.
  destruct (newRawFile (engine env) path OR_RAWFILE_TYPE_UNKNOWN) as [h|] eqn:Hopen.
  - destruct (decide (fst (getRawData (engine env) h OR_OPTIONS_NONE)
                      = OR_ERROR_NONE)) as [Hcode|Hcode].
    + rewrite (extract_raw_image_run env path destination flag h w Hopen Hcode).
      eexists. reflexivity.
    + rewrite (extract_raw_image_fails_to_extract env path destination flag
                 h w Hopen Hcode).
      eexists. reflexivity.
  - rewrite (extract_raw_image_fails_to_open env path destination flag w Hopen).
    exists []. rewrite app_nil_r. reflexivity.
Qed.

Lemma perform_heap (a : action) (w : World) :
  through_facade a = true ->
  exists extra, heap (snd (perform env a w)) = heap w ++ extra.
Proof.
  destruct a; cbn [through_facade perform]; intros Hfacade;
    try discriminate Hfacade.
  - unfold bind. rewrite from_path_run.
    destruct (newRawFile _ _ _); exists []; rewrite app_nil_r; reflexivity.
  - unfold from_string, bind, log_call, raise, ret.
    destruct (newRawFileFromMemory _ _ _); exists []; rewrite app_nil_r;
      reflexivity.
  - destruct (get_thumbnail_heap self requested_width w) as [x Hx].
    unfold bind. destruct (get_thumbnail env self requested_width w) as [[]];
      exists [x]; exact Hx.
  - destruct (get_thumbnails_heap self w) as [extra Hextra].
    unfold bind. destruct (get_thumbnails env self w) as [[]];
      exists extra; exact Hextra.
  - destruct (get_raw_data_heap self options w) as [x Hx].
    unfold bind. destruct (get_raw_data env self options w) as [[]];
      exists [x]; exact Hx.
  - apply extract_thumbnails_heap.
  - apply extract_raw_image_heap.
Qed.

(** X13. Whatever a client does through the facade and the drivers, the
    native bitmaps that were there stay as they were: each call only adds
    new ones. A bitmap handed out once is changed only by a call to one of
    its own mutators. *)
Theorem facade_leaves_bitmaps_alone (steps : list action) (w : World) :
  Forall (fun a => through_facade a = true) steps ->
  (exists extra, heap (run_actions env steps w) = heap w ++ extra)
  /\ forall (bitmap : Bitmap) (b : BitmapData),
       heap w !! _bitmap bitmap = Some b ->
       heap (run_actions env steps w) !! _bitmap bitmap = Some b.
Proof.
  intros Hsteps.
  assert (Hextra : exists extra, heap (run_actions env steps w) = heap w ++ extra).
  { revert w. induction Hsteps as [|a steps Ha _ IH]; intros w.
    - exists []. rewrite app_nil_r. reflexivity.
    - change (run_actions env (a :: steps) w)
        with (run_actions env steps (snd (perform env a w))).
      destruct (perform_heap a w Ha) as [one Hone].
      destruct (IH (snd (perform env a w))) as [more Hmore].
      exists (one ++ more). rewrite Hmore, Hone, <- app_assoc. reflexivity. }
  split; [exact Hextra|].
  intros bitmap b Hb. destruct Hextra as [extra ->].
  apply lookup_app_l_Some. exact Hb.
Qed.

(** X15. In every world a session leads to, the text [Bitmap.__repr__]
    gives for a bitmap names its data type and reports as size the length
    of the very buffer [get_data] returns, with the width and the height;
    asking for it changes nothing. *)
Theorem repr_reports_the_buffer (steps : list action) (bitmap : Bitmap)
    (b : BitmapData) :
  let w := run_actions env steps empty_world in
  heap w !! _bitmap bitmap = Some b ->
  Bitmap__repr env bitmap w
  = (Returns ("<Bitmap data_type=" +:+ enum_name (engine env) (bd_dataType b)
              +:+ " size=" +:+ Py.format_d (Z.of_nat (String.length (bd_data b)))
              +:+ " width=" +:+ Py.format_d (Z.of_N (bd_x b))
              +:+ " height=" +:+ Py.format_d (Z.of_N (bd_y b)) +:+ ">"), w)
  /\ fst (get_data bitmap w) = Returns (bd_data b).
Proof.
  intros w Hb.
  assert (Hw : heap_consistent w).
  { apply run_actions_consistent. constructor. }
  pose proof (proj1 (Forall_lookup _ _) Hw _ _ Hb) as Hsize.
  unfold consistent in Hsize.
  unfold Bitmap__repr, bind, get_data_type, get_size, get_width, get_height,
    get_data, ret.
  rewrite !(native_get_lookup _ _ _ _ Hb). cbn [fst].
  rewrite <- Hsize, nat_N_Z. split; reflexivity.
Qed.

End FacadeInUse.


(** ** The further statements on the synthetic file *)

Lemma extract_raw_image_outcome_witness :
  fst (cfa.extract_raw_image synthetic_env "images/goose.cr2" "out" true
         empty_world) = Raises (Error None)
  /\ files (snd (cfa.extract_raw_image synthetic_env "images/goose.cr2" "out"
                   true empty_world)) = files empty_world
  /\ raw_data_extractable synthetic_env "images/duck.cr2".
Proof.
  destruct (extract_raw_image_outcome synthetic_env "images/goose.cr2" "out"
              true empty_world) as (_ & Hmissing & _ & Hclean).
  destruct (extract_raw_image_outcome synthetic_env "images/duck.cr2" "out"
              true empty_world) as (Hreturned & _).
  assert (Hraises :
            fst (cfa.extract_raw_image synthetic_env "images/goose.cr2" "out"
                   true empty_world) = Raises (Error None)).
  { apply Hmissing. vm_compute; reflexivity. }
  split; [exact Hraises|]. split.
  - exact (proj1 (Hclean _ Hraises)).
  - apply Hreturned. vm_compute; reflexivity.
Defined.

Lemma extract_thumbnails_outcome_witness :
  fst (thumb.extract_thumbnails failing_env "images/duck.cr2" "out" true
         empty_world)
  = Raises (Error (Some (fst (getThumbnail (engine failing_env) 1%N 500%N))))
  /\ files (snd (thumb.extract_thumbnails failing_env "images/duck.cr2" "out"
                   true empty_world)) = files empty_world
  /\ thumbnails_extractable synthetic_env "images/duck.cr2".
Proof.
  destruct (extract_thumbnails_outcome synthetic_env "images/duck.cr2" "out"
              true empty_world) as (Hreturned & _).
  destruct (extract_thumbnails_outcome failing_env "images/duck.cr2" "out"
              true empty_world) as (_ & _ & Hfails & Hclean).
  assert (Hraises :
            fst (thumb.extract_thumbnails failing_env "images/duck.cr2" "out"
                   true empty_world)
            = Raises (Error (Some (fst (getThumbnail (engine failing_env) 1%N
                                          500%N))))).
  { apply (Hfails 1%N [160%N] 500%N [42%N]).
    - vm_compute; reflexivity.
    - vm_compute; reflexivity.
    - repeat constructor.
    - vm_compute. discriminate. }
  split; [exact Hraises|]. split.
  - exact (proj1 (Hclean _ Hraises)).
  - apply Hreturned. vm_compute; reflexivity.
Defined.

Lemma extract_thumbnails_diagnostics_witness :
  stderr (snd (thumb.extract_thumbnails synthetic_env "images/duck.cr2" "out"
                 true empty_world))
  = thumb.cannot_extract "OR_DATA_TYPE_COMPRESSED_CFA" "images/duck.cr2" 7 5
    +:+ Py.nl.
Proof.
  destruct (extract_thumbnails_diagnostics synthetic_env "images/duck.cr2" "out"
              true 1%N empty_world) as [Hlines _].
  - vm_compute; reflexivity.
  - repeat constructor.
  - etransitivity; [exact Hlines|]. vm_compute; reflexivity.
Defined.

Lemma extract_thumbnails_launches_witness :
  browser (snd (thumb.extract_thumbnails synthetic_env "images/duck.cr2" "out"
                  true empty_world))
  = [open_new_tab "/home/user/out/duck-160x120.ppm";
     open_new_tab "/home/user/out/duck-42x28None";
     open_new_tab "/home/user/out/duck-1936x1288.jpe";
     open_new_tab "/home/user/out/duck-160x120.ppm"].
Proof.
  etransitivity.
  - apply (extract_thumbnails_launches synthetic_env "images/duck.cr2" "out"
             1%N empty_world).
    + vm_compute; reflexivity.
    + repeat constructor.
  - vm_compute; reflexivity.
Defined.

Lemma extract_thumbnails_files_witness :
  files (snd (thumb.extract_thumbnails synthetic_env "images/duck.cr2" "out"
                true empty_world))
  !! destination_file synthetic_env "out"
       (thumbnail_file "images/duck.cr2" 160 120 ".ppm")
  = Some (ppm_bytes 160 120 "RGBrgb").
Proof.
  apply (extract_thumbnails_files synthetic_env "images/duck.cr2" "out" true
           1%N empty_world
           ((fun width => apply_ops (snd (synthetic_getThumbnail width)) blank)
              <$> [160; 7; 42; 1936]%N)
           []
           (apply_ops (snd (synthetic_getThumbnail 160%N)) blank)
           (ppm_bytes 160 120 "RGBrgb") ".ppm").
  - vm_compute; reflexivity.
  - repeat constructor.
  - vm_compute; reflexivity.
  - vm_compute; reflexivity.
  - constructor.
Defined.



Lemma write_rgb8pixmap_to_stream_reads_back_witness :
  exists appended,
    thumb.write_rgb8pixmap_to_stream (openraw.mkBitmap 0%nat) "255 "
                                     synthetic_enumerated
    = (Returns ("255 " +:+ appended), synthetic_enumerated)
    /\ read_pnm appended = Some ("P6", 160, 120, 255, "RGBrgb").
Proof.
  destruct (write_rgb8pixmap_to_stream_reads_back (openraw.mkBitmap 0%nat)
              "255 " synthetic_enumerated
              (apply_ops (snd (synthetic_getThumbnail 160%N)) blank))
    as (appended & Hrun & Hread).
  - vm_compute; reflexivity.
  - exists appended. split; [exact Hrun | exact Hread].
Defined.

Lemma extract_raw_image_reads_back_witness :
  exists content,
    files (snd (cfa.extract_raw_image synthetic_env "images/duck.cr2" "out"
                  false empty_world))
    !! posixpath.abspath (getcwd synthetic_env)
         (posixpath.join "out"
            (fst (posixpath.splitext (posixpath.basename "images/duck.cr2"))
             +:+ ".pgm"))
    = Some content
    /\ read_pnm content = Some ("P5", 3944, 2622, 16383, "sensor").
Proof.
  destruct (extract_raw_image_reads_back synthetic_env "images/duck.cr2" "out"
              false 1%N empty_world) as (content & Hfile & Hread).
  - vm_compute; reflexivity.
  - vm_compute; reflexivity.
  - exists content. split; [exact Hfile | exact Hread].
Defined.

Lemma factory_made_raw_file_answers_witness :
  openraw.get_type synthetic_env synthetic_raw_file empty_world
  = (Returns OR_RAWFILE_TYPE_CR2, empty_world)
  /\ fst (openraw.get_thumbnail_widths synthetic_env synthetic_raw_file
            empty_world) = Returns [160; 7; 42; 1936; 160]%N.
Proof.
  destruct (factory_made_raw_file_answers synthetic_env "images/duck.cr2" ""
              OR_RAWFILE_TYPE_UNKNOWN empty_world synthetic_opened
              synthetic_raw_file) as (h & Hself & _ & Hanswers).
  - left. vm_compute; reflexivity.
  - vm_compute in Hself. injection Hself as <-.
    destruct (Hanswers empty_world) as (Htype & _ & Hwidths & _).
    split; [exact Htype | exact Hwidths].
Defined.

Lemma raw_data_is_one_object_witness :
  let w2 :=
    snd (native_apply [setDimensions 10 20] 0%nat synthetic_raw_extracted) in
  fst (openraw.get_width (openraw.as_Bitmap (openraw.RawData__init 0%nat)) w2)
  = Returns 10%N
  /\ fst (openraw.get_height (openraw.as_Bitmap (openraw.RawData__init 0%nat))
            w2) = Returns 20%N.
Proof.
  intros w2.
  destruct (raw_data_is_one_object synthetic_env synthetic_raw_file
              OR_OPTIONS_NONE synthetic_opened synthetic_raw_extracted
              (openraw.RawData__init 0%nat) 10 20) as (Hwidth & Hheight & _).
  - vm_compute; reflexivity.
  - split; [exact Hwidth | exact Hheight].
Defined.

Lemma facade_leaves_bitmaps_alone_witness :
  heap (run_actions synthetic_env
          [do_get_thumbnail synthetic_raw_file 42;
           do_extract_thumbnails "images/duck.cr2" "out" false;
           do_from_path "images/goose.cr2" OR_RAWFILE_TYPE_UNKNOWN]
          synthetic_raw_extracted) !! 0%nat
  = Some (apply_ops (snd (getRawData (engine synthetic_env) 1%N OR_OPTIONS_NONE))
                    blank).
Proof.
  destruct (facade_leaves_bitmaps_alone synthetic_env
              [do_get_thumbnail synthetic_raw_file 42;
               do_extract_thumbnails "images/duck.cr2" "out" false;
               do_from_path "images/goose.cr2" OR_RAWFILE_TYPE_UNKNOWN]
              synthetic_raw_extracted) as [_ Hkept].
  - repeat constructor.
  - apply (Hkept (openraw.mkBitmap 0%nat)). vm_compute; reflexivity.
Defined.

Lemma repr_reports_the_buffer_witness :
  fst (Bitmap__repr synthetic_env (openraw.mkBitmap 0%nat)
         (run_actions synthetic_env synthetic_session empty_world))
  = Returns "<Bitmap data_type=OR_DATA_TYPE_PIXMAP_8RGB size=6 width=160 height=120>".
Proof.
  destruct (repr_reports_the_buffer synthetic_env synthetic_session
              (openraw.mkBitmap 0%nat)
              (apply_ops (snd (synthetic_getThumbnail 160%N)) blank))
    as [Hrepr _].
  - vm_compute; reflexivity.
  - etransitivity; [exact (f_equal fst Hrepr)|]. vm_compute; reflexivity.
Defined.

